(** * Live data dashboard (src/App.js): value extraction, bounded series
      buffer and polling controller

    The React component [LiveDataDashboard] is embedded function by
    function.  JavaScript values are the values [JSON.parse] produces, plus
    [undefined] and opaque built-in objects reached through prototype
    chains; numbers are IEEE-754 binary64 values ([spec_float] with
    precision 53 and maximal exponent 1024); strings are sequences of code
    units (code units below 256 are represented).  The built-in objects of
    the JavaScript engine (the members of its prototypes) are a parameter
    [Host] of the development. *)

From Stdlib Require Import ZArith List String Ascii Bool Lia DecimalString.
From Stdlib Require Import Floats.SpecFloat.
From Stdlib Require DecimalFacts DecimalPos DecimalN.
Import ListNotations.

Set Warnings "-register-all".

Local Open Scope string_scope.
Local Open Scope list_scope.
Local Open Scope Z_scope.

(* ===================================================================== *)
(** ** Numbers: IEEE-754 binary64 *)
(* ===================================================================== *)

Definition prec : Z := 53.
Definition emax : Z := 1024.

Definition number : Type := spec_float.

Definition NaN : number := S754_nan.
Definition Infinity : number := S754_infinity false.
Definition NegInfinity : number := S754_infinity true.
Definition PosZero : number := S754_zero false.
Definition NegZero : number := S754_zero true.

(** The Number value of a mathematical integer (round to nearest, ties to
    even; exact below 2^53). *)
Definition of_Z (z : Z) : number := binary_normalize prec emax z 0 false.

Arguments of_Z : simpl never.

Definition num_add : number -> number -> number := SFadd prec emax.
Definition num_div : number -> number -> number := SFdiv prec emax.
Definition num_neg : number -> number := SFopp.
Definition num_ltb : number -> number -> bool := SFltb.

Definition is_nan (x : number) : bool :=
  match x with S754_nan => true | _ => false end.

Definition number_eq_dec (x y : number) : {x = y} + {x <> y}.
Proof.
  decide equality; try apply Bool.bool_dec;
    try apply Z.eq_dec; apply Pos.eq_dec.
Defined.

(** [ToIntegerOrInfinity] of ECMA-262: truncation toward zero, with NaN and
    both zeros mapped to 0. *)
Inductive IntegerOrInfinity : Type :=
| NegInf
| Int (z : Z)
| PosInf.

Definition ToIntegerOrInfinity (x : number) : IntegerOrInfinity :=
  match x with
  | S754_nan => Int 0
  | S754_zero _ => Int 0
  | S754_infinity s => if s then NegInf else PosInf
  | S754_finite s m e =>
      let magnitude := Z.shiftl (Zpos m) e in
      Int (if s then - magnitude else magnitude)
  end.

(* ===================================================================== *)
(** ** Strings *)
(* ===================================================================== *)

(** [String.prototype.split] with a one-character separator. *)
Fixpoint split (sep : ascii) (s : string) : list string :=
  match s with
  | EmptyString => [EmptyString]
  | String c rest =>
      if Ascii.eqb c sep then EmptyString :: split sep rest
      else match split sep rest with
           | [] => [String c EmptyString]
           | seg :: segs => String c seg :: segs
           end
  end.

Definition code (c : ascii) : Z := Z.of_N (N_of_ascii c).

Definition digit_of (c : ascii) : option Z :=
  let n := code c in
  if (48 <=? n) && (n <=? 57) then Some (n - 48) else None.

(** Longest prefix of decimal digits, and what follows it. *)
Fixpoint take_digits (s : string) : list Z * string :=
  match s with
  | EmptyString => ([], EmptyString)
  | String c rest =>
      match digit_of c with
      | Some d => let '(ds, tl) := take_digits rest in (d :: ds, tl)
      | None => ([], s)
      end
  end.

Definition digits_value (ds : list Z) : Z :=
  fold_left (fun acc d => 10 * acc + d) ds 0.

(** An array index in canonical form: ["0"], or digits without a leading
    zero. *)
Definition canonical_index (s : string) : option nat :=
  match s with
  | EmptyString => None
  | String c rest =>
      match take_digits s with
      | (ds, EmptyString) =>
          if Ascii.eqb c "0" && negb (String.eqb rest EmptyString) then None
          else Some (Z.to_nat (digits_value ds))
      | _ => None
      end
  end.

Fixpoint string_nth (s : string) (i : nat) : option ascii :=
  match s, i with
  | EmptyString, _ => None
  | String c _, O => Some c
  | String _ rest, S j => string_nth rest j
  end.

(* ===================================================================== *)
(** ** JavaScript values and completions *)
(* ===================================================================== *)

(** The values of the embedding: what [JSON.parse] returns, [undefined],
    and the built-in objects of the engine, which are opaque.  The entries
    of a mapping are listed with their keys; a lookup finds the first entry
    of a key. *)
Inductive JSValue : Type :=
| JUndefined
| JNull
| JBool (b : bool)
| JNumber (n : number)
| JString (s : string)
| JArray (elems : list JSValue)
| JObject (fields : list (string * JSValue))
| JHost (id : positive).

(** The outcome of evaluating an expression: a value, or a thrown error
    with its [message]. *)
Inductive completion (A : Type) : Type :=
| Normal (a : A)
| Throw (message : string).

Arguments Normal {A} a.
Arguments Throw {A} message.

Definition bind {A B : Type} (c : completion A) (k : A -> completion B)
  : completion B :=
  match c with
  | Normal a => k a
  | Throw m => Throw m
  end.

Notation "x <- c ;; k" := (bind c (fun x => k))
  (at level 61, c at next level, right associativity).

(** What the engine supplies and the repository does not define. *)
Record Host : Type := {
  (** [[Get]] continued on the prototype chain of a value that has no own
      property of that name ([undefined] when the chain has none; accessor
      members may throw); the whole of [[Get]] on a built-in object. *)
  inherited : JSValue -> string -> completion JSValue;
  (** [ToString] of a built-in object. *)
  host_to_string : positive -> completion string
}.

Definition ToBoolean (v : JSValue) : bool :=
  match v with
  | JUndefined | JNull => false
  | JBool b => b
  | JNumber n =>
      match n with
      | S754_zero _ | S754_nan => false
      | _ => true
      end
  | JString s => negb (String.eqb s EmptyString)
  | JArray _ | JObject _ | JHost _ => true
  end.

Definition typeof_is_number (v : JSValue) : bool :=
  match v with JNumber _ => true | _ => false end.

Fixpoint lookup_field (key : string) (fields : list (string * JSValue))
  : option JSValue :=
  match fields with
  | [] => None
  | (k, v) :: rest => if String.eqb k key then Some v else lookup_field key rest
  end.

(** Own properties of a value produced by [JSON.parse]: the entries of a
    mapping, the elements and [length] of an array, the code units and
    [length] of a string. *)
Definition GetOwnProperty (v : JSValue) (key : string) : option JSValue :=
  match v with
  | JObject fields => lookup_field key fields
  | JArray elems =>
      if String.eqb key "length" then
        Some (JNumber (of_Z (Z.of_nat (List.length elems))))
      else match canonical_index key with
           | Some i => nth_error elems i
           | None => None
           end
  | JString s =>
      if String.eqb key "length" then
        Some (JNumber (of_Z (Z.of_nat (String.length s))))
      else match canonical_index key with
           | Some i =>
               match string_nth s i with
               | Some c => Some (JString (String c EmptyString))
               | None => None
               end
           | None => None
           end
  | _ => None
  end.

Section Extraction.

Variable host : Host.

(** [v[key]] for a [v] that is neither [null] nor [undefined]. *)
Definition Get (v : JSValue) (key : string) : completion JSValue :=
  match GetOwnProperty v key with
  | Some w => Normal w
  | None => inherited host v key
  end.

(** [Array.prototype.reduce] with an initial value; a throwing callback
    ends the reduction. *)
Fixpoint reduce {A B : Type} (f : B -> A -> completion B) (l : list A)
  (init : B) : completion B :=
  match l with
  | [] => Normal init
  | x :: rest => acc <- f init x ;; reduce f rest acc
  end.

(** [acc && acc[part]] *)
Definition and_then_get (acc : JSValue) (part : string)
  : completion JSValue :=
  if ToBoolean acc then Get acc part else Normal acc.

(** App.js, lines 17-20. *)
Definition getValueFromPath (obj : JSValue) (path : string)
  : completion JSValue :=
  if negb (ToBoolean (JString path)) then Normal obj
  else reduce and_then_get (split "." path) obj.

End Extraction.

(* ===================================================================== *)
(** ** String conversion and [parseFloat] *)
(* ===================================================================== *)

(** [StrWhiteSpaceChar] among the code units below 256: TAB, LF, VT, FF, CR,
    SP and NBSP. *)
Definition is_whitespace (c : ascii) : bool :=
  let n := code c in
  (9 <=? n) && (n <=? 13) || (n =? 32) || (n =? 160).

Fixpoint trim_start (s : string) : string :=
  match s with
  | EmptyString => EmptyString
  | String c rest => if is_whitespace c then trim_start rest else s
  end.

(** The Number value of the decimal [m * 10^e] with [0 <= m]: rounded to
    nearest, ties to even.  Values beyond the binary64 range are decided
    without computing the power of ten: above [10^400] lies infinity, and
    below [2^-1080] lies zero. *)
Definition of_decimal (negative : bool) (m e : Z) : number :=
  if m =? 0 then S754_zero negative
  else if 400 <? e then S754_infinity negative
  else if Z.log2 m + 1 + 3 * e <? -1080 then S754_zero negative
  else if 0 <=? e then
    let v := m * 10 ^ e in
    binary_normalize prec emax (if negative then - v else v) 0 negative
  else
    let '(q, e', l) := SFdiv_core_binary prec emax m 0 (10 ^ (- e)) 0 in
    binary_round_aux prec emax negative q e' l.

(** [ExponentPart], 0 when there is none. *)
Definition parse_exponent (s : string) : Z :=
  match s with
  | String c rest =>
      if Ascii.eqb c "e" || Ascii.eqb c "E" then
        let '(negative, digits) :=
          match rest with
          | String "-"%char r => (true, r)
          | String "+"%char r => (false, r)
          | _ => (false, rest)
          end in
        match take_digits digits with
        | ([], _) => 0
        | (ds, _) => if negative then - digits_value ds else digits_value ds
        end
      else 0
  | EmptyString => 0
  end.

(** [parseFloat] on a string: leading white space is skipped and the
    longest prefix that is a [StrDecimalLiteral] is converted; [NaN] when
    there is none. *)
Definition parseFloat_string (input : string) : number :=
  let s := trim_start input in
  let '(negative, body) :=
    match s with
    | String "-"%char r => (true, r)
    | String "+"%char r => (false, r)
    | _ => (false, s)
    end in
  if String.prefix "Infinity" body then S754_infinity negative
  else
    let '(int_part, after_int) := take_digits body in
    let '(frac_part, after_frac) :=
      match after_int with
      | String "."%char r => take_digits r
      | _ => ([], after_int)
      end in
    match int_part ++ frac_part with
    | [] => NaN
    | ds =>
        of_decimal negative (digits_value ds)
          (parse_exponent after_frac - Z.of_nat (List.length frac_part))
    end.

(** [Number::toString] in radix 10.  For a finite [x > 0], in the form
    the arithmetic produces, it takes the integers [n], [k] and [s] with
    [10^(k-1) <= s < 10^k] whose decimal [s * 10^(n-k)] has the Number
    value [x], with [k] least and then [s] closest to [x]. *)
Definition number_eqb (x y : number) : bool :=
  if number_eq_dec x y then true else false.

(** Least [n], from the given one on, with [num / den < 10^n]. *)
Fixpoint magnitude10 (fuel : nat) (n num den : Z) : Z :=
  match fuel with
  | O => n
  | S fuel' =>
      if (if 0 <=? n then num <? 10 ^ n * den else num * 10 ^ (- n) <? den)
      then n
      else magnitude10 fuel' (n + 1) num den
  end.

(** [num / den * 10^p] as a fraction. *)
Definition scale10 (num den p : Z) : Z * Z :=
  if 0 <=? p then (num * 10 ^ p, den) else (num, den * 10 ^ (- p)).

(** The [s] and [n] for [k] digits, if a decimal of [k] digits has the
    Number value [x = num / den]. *)
Definition digits_for (x : number) (num den n k : Z) : option (Z * Z) :=
  let '(ynum, yden) := scale10 num den (k - n) in
  let lo := ynum / yden in
  let '(hi, hi_n) :=
    if lo + 1 =? 10 ^ k then (10 ^ (k - 1), n + 1) else (lo + 1, n) in
  let lo_ok := (10 ^ (k - 1) <=? lo) && number_eqb (of_decimal false lo (n - k)) x in
  let hi_ok := number_eqb (of_decimal false hi (hi_n - k)) x in
  match lo_ok, hi_ok with
  | true, true =>
      match 2 * ynum ?= (2 * lo + 1) * yden with
      | Lt => Some (lo, n)
      | Gt => Some (hi, hi_n)
      | Eq => if Z.even lo then Some (lo, n) else Some (hi, hi_n)
      end
  | true, false => Some (lo, n)
  | false, true => Some (hi, hi_n)
  | false, false => None
  end.

Fixpoint shortest_digits (fuel : nat) (x : number) (num den n k : Z)
  : Z * Z * Z :=
  match fuel with
  | O => (num / den, n, k)
  | S fuel' =>
      match digits_for x num den n k with
      | Some (s, n') => (s, n', k)
      | None => shortest_digits fuel' x num den n (k + 1)
      end
  end.

Fixpoint zeros (n : nat) : string :=
  match n with
  | O => EmptyString
  | S n' => String "0" (zeros n')
  end.

Definition decimal_string (z : Z) : string :=
  NilZero.string_of_uint (N.to_uint (Z.to_N z)).

Definition format_decimal (s n k : Z) : string :=
  let ds := decimal_string s in
  if (k <=? n) && (n <=? 21) then (ds ++ zeros (Z.to_nat (n - k)))%string
  else if (0 <? n) && (n <=? 21) then
    (substring 0 (Z.to_nat n) ds ++ "."
       ++ substring (Z.to_nat n) (Z.to_nat (k - n)) ds)%string
  else if (-6 <? n) && (n <=? 0) then
    ("0." ++ zeros (Z.to_nat (- n)) ++ ds)%string
  else
    let e := n - 1 in
    let sign := if e <? 0 then "-" else "+" in
    let exponent := ("e" ++ sign ++ decimal_string (Z.abs e))%string in
    if k =? 1 then (ds ++ exponent)%string
    else (substring 0 1 ds ++ "."
            ++ substring 1 (Z.to_nat (k - 1)) ds ++ exponent)%string.

Definition number_to_string (x : number) : string :=
  match x with
  | S754_nan => "NaN"
  | S754_zero _ => "0"
  | S754_infinity negative => if negative then "-Infinity" else "Infinity"
  | S754_finite negative m e =>
      let '(num, den) :=
        if 0 <=? e then (Zpos m * 2 ^ e, 1) else (Zpos m, 2 ^ (- e)) in
      let n := magnitude10 640 (-324) num den in
      let '(s, n', k) := shortest_digits 17 (S754_finite false m e) num den n 1 in
      ((if negative then "-" else "") ++ format_decimal s n' k)%string
  end.

Section Coercion.

Variable host : Host.

(** [ToString].  A mapping converts through [Object.prototype.toString]
    unless it has an own entry named [toString]: no value of [JSON.parse]
    is callable, and [Object.prototype.valueOf] returns the mapping itself,
    so the conversion then throws a [TypeError].  An array converts through
    [Array.prototype.join]. *)
Fixpoint ToString (v : JSValue) : completion string :=
  match v with
  | JUndefined => Normal "undefined"
  | JNull => Normal "null"
  | JBool b => Normal (if b then "true" else "false")
  | JNumber n => Normal (number_to_string n)
  | JString s => Normal s
  | JArray elems =>
      (fix join (l : list JSValue) : completion string :=
         match l with
         | [] => Normal ""
         | e :: rest =>
             s <- match e with
                  | JUndefined | JNull => Normal ""
                  | _ => ToString e
                  end ;;
             match rest with
             | [] => Normal s
             | _ => r <- join rest ;; Normal (s ++ "," ++ r)%string
             end
         end) elems
  | JObject fields =>
      match lookup_field "toString" fields with
      | Some _ => Throw "Cannot convert object to primitive value"
      | None => Normal "[object Object]"
      end
  | JHost id => host_to_string host id
  end.

Definition parseFloat (v : JSValue) : completion number :=
  s <- ToString v ;; Normal (parseFloat_string s).

(** [x || 0] on a number [x]. *)
Definition or_zero (x : number) : number :=
  if ToBoolean (JNumber x) then x else PosZero.

(** App.js, line 35:
    [typeof value === 'number' ? value : parseFloat(value) || 0]. *)
Definition dataPointValue (value : JSValue) : completion number :=
  match value with
  | JNumber n => Normal n
  | _ => x <- parseFloat value ;; Normal (or_zero x)
  end.

End Coercion.

(* ===================================================================== *)
(** ** The series buffer *)
(* ===================================================================== *)

(** [newDataPoint] of App.js, lines 33-37. *)
Record DataPoint : Type := {
  timestamp : string;
  value : number;
  fullData : JSValue
}.

(** [Array.prototype.slice(start)]: a negative [start] counts from the
    end. *)
Definition slice {A : Type} (start : number) (l : list A) : list A :=
  let len := Z.of_nat (List.length l) in
  let k :=
    match ToIntegerOrInfinity start with
    | NegInf => 0
    | Int relativeStart =>
        if relativeStart <? 0 then Z.max (len + relativeStart) 0
        else Z.min relativeStart len
    | PosInf => len
    end in
  skipn (Z.to_nat k) l.

(** The updater passed to [setData], App.js, lines 39-43. *)
Definition appendDataPoint (maxDataPoints : number) (newDataPoint : DataPoint)
  (prevData : list DataPoint) : list DataPoint :=
  let updated := prevData ++ [newDataPoint] in
  slice (num_neg maxDataPoints) updated.

(** [Math.min]: [NaN] if any argument is, [-0] below [+0]. *)
Fixpoint min_from (lowest : number) (args : list number) : number :=
  match args with
  | [] => lowest
  | x :: rest =>
      if is_nan x then NaN
      else
        let lowest' :=
          match x, lowest with
          | S754_zero true, S754_zero false => NegZero
          | _, _ => lowest
          end in
        min_from (if num_ltb x lowest' then x else lowest') rest
  end.

Definition Math_min (args : list number) : number := min_from Infinity args.

(** [Math.max]: [NaN] if any argument is, [+0] above [-0]. *)
Fixpoint max_from (highest : number) (args : list number) : number :=
  match args with
  | [] => highest
  | x :: rest =>
      if is_nan x then NaN
      else
        let highest' :=
          match x, highest with
          | S754_zero false, S754_zero true => PosZero
          | _, _ => highest
          end in
        max_from (if num_ltb highest' x then x else highest') rest
  end.

Definition Math_max (args : list number) : number := max_from NegInfinity args.

Record Stats : Type := {
  latest : option number;
  min : number;
  max : number;
  avg : number
}.

(** [stats], App.js, lines 116-121; [None] is [null], and [latest] is
    [None] where [data[data.length - 1]?.value] is [undefined]. *)
Definition stats (data : list DataPoint) : option Stats :=
  if (0 <? List.length data)%nat then
    Some {| latest := option_map value (nth_error data (List.length data - 1));
            min := Math_min (map value data);
            max := Math_max (map value data);
            avg := num_div
                     (fold_left (fun sum d => num_add sum (value d)) data PosZero)
                     (of_Z (Z.of_nat (List.length data))) |}
  else None.

(* ===================================================================== *)
(** ** The component state and its handlers *)
(* ===================================================================== *)

(** The [useState] cells of [LiveDataDashboard], App.js, lines 6-14.  A
    [Date] is its time value; [None] is [null]. *)
Record State : Type := {
  data : list DataPoint;
  isLive : bool;
  apiUrl : string;
  refreshInterval : number;
  lastUpdate : option Z;
  error : option string;
  isConfigOpen : bool;
  jsonPath : string;
  maxDataPoints : number
}.

Definition initialState : State :=
  {| data := [];
     isLive := false;
     apiUrl := "https://api.coindesk.com/v1/bpi/currentprice.json";
     refreshInterval := of_Z 5000;
     lastUpdate := None;
     error := None;
     isConfigOpen := false;
     jsonPath := "bpi.USD.rate_float";
     maxDataPoints := of_Z 20 |}.

Definition setData (f : list DataPoint -> list DataPoint) (s : State) : State :=
  {| data := f (data s); isLive := isLive s; apiUrl := apiUrl s;
     refreshInterval := refreshInterval s; lastUpdate := lastUpdate s;
     error := error s; isConfigOpen := isConfigOpen s;
     jsonPath := jsonPath s; maxDataPoints := maxDataPoints s |}.

Definition setIsLive (b : bool) (s : State) : State :=
  {| data := data s; isLive := b; apiUrl := apiUrl s;
     refreshInterval := refreshInterval s; lastUpdate := lastUpdate s;
     error := error s; isConfigOpen := isConfigOpen s;
     jsonPath := jsonPath s; maxDataPoints := maxDataPoints s |}.

Definition setApiUrl (u : string) (s : State) : State :=
  {| data := data s; isLive := isLive s; apiUrl := u;
     refreshInterval := refreshInterval s; lastUpdate := lastUpdate s;
     error := error s; isConfigOpen := isConfigOpen s;
     jsonPath := jsonPath s; maxDataPoints := maxDataPoints s |}.

Definition setRefreshInterval (ms : number) (s : State) : State :=
  {| data := data s; isLive := isLive s; apiUrl := apiUrl s;
     refreshInterval := ms; lastUpdate := lastUpdate s;
     error := error s; isConfigOpen := isConfigOpen s;
     jsonPath := jsonPath s; maxDataPoints := maxDataPoints s |}.

Definition setLastUpdate (d : option Z) (s : State) : State :=
  {| data := data s; isLive := isLive s; apiUrl := apiUrl s;
     refreshInterval := refreshInterval s; lastUpdate := d;
     error := error s; isConfigOpen := isConfigOpen s;
     jsonPath := jsonPath s; maxDataPoints := maxDataPoints s |}.

Definition setError (e : option string) (s : State) : State :=
  {| data := data s; isLive := isLive s; apiUrl := apiUrl s;
     refreshInterval := refreshInterval s; lastUpdate := lastUpdate s;
     error := e; isConfigOpen := isConfigOpen s;
     jsonPath := jsonPath s; maxDataPoints := maxDataPoints s |}.

Definition setIsConfigOpen (b : bool) (s : State) : State :=
  {| data := data s; isLive := isLive s; apiUrl := apiUrl s;
     refreshInterval := refreshInterval s; lastUpdate := lastUpdate s;
     error := error s; isConfigOpen := b;
     jsonPath := jsonPath s; maxDataPoints := maxDataPoints s |}.

Definition setJsonPath (p : string) (s : State) : State :=
  {| data := data s; isLive := isLive s; apiUrl := apiUrl s;
     refreshInterval := refreshInterval s; lastUpdate := lastUpdate s;
     error := error s; isConfigOpen := isConfigOpen s;
     jsonPath := p; maxDataPoints := maxDataPoints s |}.

Definition setMaxDataPoints (n : number) (s : State) : State :=
  {| data := data s; isLive := isLive s; apiUrl := apiUrl s;
     refreshInterval := refreshInterval s; lastUpdate := lastUpdate s;
     error := error s; isConfigOpen := isConfigOpen s;
     jsonPath := jsonPath s; maxDataPoints := n |}.

(** App.js, lines 72-74. *)
Definition toggleLive (s : State) : State := setIsLive (negb (isLive s)) s.

(** App.js, lines 76-79. *)
Definition clearData (s : State) : State := setError None (setData (fun _ => []) s).

Record ApiExample : Type := {
  name : string;
  url : string;
  path : string;
  description : string
}.

(** App.js, lines 82-107. *)
Definition apiExamples : list ApiExample :=
  [ {| name := "Bitcoin Price (CoinDesk)";
       url := "https://api.coindesk.com/v1/bpi/currentprice.json";
       path := "bpi.USD.rate_float";
       description := "Precio actual de Bitcoin en USD" |};
    {| name := "Random User API";
       url := "https://randomuser.me/api/";
       path := "results[0].login.uuid";
       description := "Datos aleatorios de usuarios (extrae UUID)" |};
    {| name := "JSONPlaceholder - Posts";
       url := "https://jsonplaceholder.typicode.com/posts/1";
       path := "id";
       description := "API de prueba - ID del post" |};
    {| name := "Open-Meteo Weather";
       url := "https://api.open-meteo.com/v1/forecast?latitude=40.4168&longitude=-3.7038&current=temperature_2m";
       path := "current.temperature_2m";
       description := "Temperatura actual en Madrid" |} ].

(** App.js, lines 109-114. *)
Definition loadExample (example : ApiExample) (s : State) : State :=
  clearData
    (setIsConfigOpen false
       (setJsonPath (path example) (setApiUrl (url example) s))).

(* ===================================================================== *)
(** ** One poll: [fetchData] *)
(* ===================================================================== *)

(** The variables a [fetchData] closure captures: the dependencies of its
    [useCallback], App.js, line 51. *)
Record Config : Type := {
  cfg_apiUrl : string;
  cfg_jsonPath : string;
  cfg_maxDataPoints : number
}.

Definition config_of (s : State) : Config :=
  {| cfg_apiUrl := apiUrl s;
     cfg_jsonPath := jsonPath s;
     cfg_maxDataPoints := maxDataPoints s |}.

(** What [fetch] resolved with: [response.ok], [response.status], and what
    [response.json()] settles with. *)
Record Response : Type := {
  ok : bool;
  status : number;
  json : completion JSValue
}.

(** The two readings of the clock in a poll: [new
    Date().toLocaleTimeString()] of line 34 and [new Date()] of line 45. *)
Record Clock : Type := {
  localeTimeString : string;
  now : Z
}.

Section Poll.

Variable host : Host.

(** The [try] block of [fetchData], App.js, lines 25-46, given what
    [fetch(apiUrl)] settled with ([Throw] when the promise rejects); the
    state updates it ends with are returned as one function. *)
Definition fetchData_try (cfg : Config) (fetched : completion Response)
  (clock : Clock) : completion (State -> State) :=
  response <- fetched ;;
  _ <- (if negb (ok response)
        then Throw ("HTTP error! status: "
                      ++ number_to_string (status response))%string
        else Normal tt) ;;
  body <- json response ;;
  extracted <- getValueFromPath host body (cfg_jsonPath cfg) ;;
  v <- dataPointValue host extracted ;;
  let newDataPoint :=
    {| timestamp := localeTimeString clock; value := v; fullData := body |} in
  Normal (fun s =>
            setError None
              (setLastUpdate (Some (now clock))
                 (setData (appendDataPoint (cfg_maxDataPoints cfg) newDataPoint) s))).

(** [try { body } catch (err) { handler(err.message) }] *)
Definition try_catch {A : Type} (body : completion A)
  (handler : string -> completion A) : completion A :=
  match body with
  | Normal a => Normal a
  | Throw message => handler message
  end.

(** [fetchData], App.js, lines 23-51: the [try] block, and the [catch]
    that stores [err.message]. *)
Definition fetchData (cfg : Config) (fetched : completion Response)
  (clock : Clock) (s : State) : completion State :=
  try_catch
    (updates <- fetchData_try cfg fetched clock ;; Normal (updates s))
    (fun message => Normal (setError (Some message) s)).

End Poll.

(* ===================================================================== *)
(** ** The polling effect and the event loop *)
(* ===================================================================== *)

(** A repeating timer armed by [setInterval]: its handle, its period and
    the [fetchData] closure it calls. *)
Record Timer : Type := {
  timer_id : positive;
  period : number;
  callback : Config
}.

(** The component with what lives outside its state: the timers armed in
    the engine, the [intervalId] the last run of the effect left to its
    cleanup ([None] is [undefined]), the handle the next [setInterval]
    returns, and the polls awaiting the network. *)
Record Runtime : Type := {
  state : State;
  timers : list Timer;
  intervalId : option positive;
  next_id : positive;
  pending : list Config
}.

Definition with_state (s : State) (r : Runtime) : Runtime :=
  {| state := s; timers := timers r; intervalId := intervalId r;
     next_id := next_id r; pending := pending r |}.

(** Calling [fetchData()]: the request leaves with the variables of the
    closure and settles later. *)
Definition callFetchData (cfg : Config) (r : Runtime) : Runtime :=
  {| state := state r; timers := timers r; intervalId := intervalId r;
     next_id := next_id r; pending := pending r ++ [cfg] |}.

Definition clearInterval (id : positive) (r : Runtime) : Runtime :=
  {| state := state r;
     timers := filter (fun t => negb (Pos.eqb (timer_id t) id)) (timers r);
     intervalId := intervalId r; next_id := next_id r; pending := pending r |}.

(** The body of the effect, App.js, lines 55-65. *)
Definition effect (r : Runtime) : Runtime :=
  if isLive (state r) then
    let r1 := callFetchData (config_of (state r)) r in
    let id := next_id r1 in
    {| state := state r1;
       timers := timers r1 ++ [ {| timer_id := id;
                                   period := refreshInterval (state r1);
                                   callback := config_of (state r1) |} ];
       intervalId := Some id;
       next_id := Pos.succ id;
       pending := pending r1 |}
  else
    {| state := state r; timers := timers r; intervalId := None;
       next_id := next_id r; pending := pending r |}.

(** The cleanup the effect returned, App.js, lines 67-69. *)
Definition cleanup (r : Runtime) : Runtime :=
  match intervalId r with
  | Some id => clearInterval id r
  | None => r
  end.

(** The dependencies of the effect, App.js, line 70; [fetchData] is a new
    function exactly when a dependency of its [useCallback] changed. *)
Definition deps (s : State) : bool * number * Config :=
  (isLive s, refreshInterval s, config_of s).

Definition Config_eq_dec (a b : Config) : {a = b} + {a <> b}.
Proof.
  decide equality; try apply number_eq_dec; apply string_dec.
Defined.

Definition deps_eq_dec (a b : bool * number * Config) : {a = b} + {a <> b}.
Proof.
  decide equality; try apply Config_eq_dec.
  decide equality; try apply number_eq_dec; apply Bool.bool_dec.
Defined.

(** After a render: when a dependency changed since the effect last ran,
    the cleanup of that run and then the effect. *)
Definition commit (before : State) (r : Runtime) : Runtime :=
  if deps_eq_dec (deps before) (deps (state r)) then r
  else effect (cleanup r).

Inductive Event : Type :=
| ClickToggleLive
| ClickFetchOnce
| ClickClear
| ClickConfig
| SelectInterval (ms : number)
| EditApiUrl (u : string)
| EditJsonPath (p : string)
| EditMaxDataPoints (n : number)
| ClickExample (index : nat)
| TimerFires (id : positive)
| FetchSettles (index : nat) (fetched : completion Response) (clock : Clock).

Fixpoint remove_nth {A : Type} (i : nat) (l : list A) : list A :=
  match i, l with
  | _, [] => []
  | O, _ :: rest => rest
  | S j, x :: rest => x :: remove_nth j rest
  end.

Section EventLoop.

Variable host : Host.

(** What an event does before the render that follows it.  The button of
    line 175 is disabled while live; a timer that is no longer armed does
    not fire; a settled poll runs the rest of its [fetchData]. *)
Definition handle (ev : Event) (r : Runtime) : Runtime :=
  match ev with
  | ClickToggleLive => with_state (toggleLive (state r)) r
  | ClickFetchOnce =>
      if isLive (state r) then r else callFetchData (config_of (state r)) r
  | ClickClear => with_state (clearData (state r)) r
  | ClickConfig =>
      with_state (setIsConfigOpen (negb (isConfigOpen (state r))) (state r)) r
  | SelectInterval ms => with_state (setRefreshInterval ms (state r)) r
  | EditApiUrl u => with_state (setApiUrl u (state r)) r
  | EditJsonPath p => with_state (setJsonPath p (state r)) r
  | EditMaxDataPoints n => with_state (setMaxDataPoints n (state r)) r
  | ClickExample index =>
      match nth_error apiExamples index with
      | Some example => with_state (loadExample example (state r)) r
      | None => r
      end
  | TimerFires id =>
      match find (fun t => Pos.eqb (timer_id t) id) (timers r) with
      | Some t => callFetchData (callback t) r
      | None => r
      end
  | FetchSettles index fetched clock =>
      match nth_error (pending r) index with
      | Some cfg =>
          let s' :=
            match fetchData host cfg fetched clock (state r) with
            | Normal s => s
            | Throw _ => state r
            end in
          {| state := s'; timers := timers r; intervalId := intervalId r;
             next_id := next_id r; pending := remove_nth index (pending r) |}
      | None => r
      end
  end.

Definition step (r : Runtime) (ev : Event) : Runtime :=
  commit (state r) (handle ev r).

Definition run (r : Runtime) (evs : list Event) : Runtime :=
  fold_left step evs r.

(** The component after its first render: the effect has run once. *)
Definition mounted : Runtime :=
  effect {| state := initialState; timers := []; intervalId := None;
            next_id := 1%positive; pending := [] |}.

End EventLoop.

(* ===================================================================== *)
(** ** A host for the examples *)
(* ===================================================================== *)

(** The members of [Object.prototype] (ECMA-262, 20.1.3 and B.2.2). *)
Definition Object_prototype_members : list string :=
  [ "constructor"; "hasOwnProperty"; "isPrototypeOf"; "propertyIsEnumerable";
    "toLocaleString"; "toString"; "valueOf"; "__proto__";
    "__defineGetter__"; "__defineSetter__";
    "__lookupGetter__"; "__lookupSetter__" ].

(** A host in which every value inherits the members of [Object.prototype]
    and nothing else; the members are built-in objects without properties
    of their own. *)
Definition plain_host : Host :=
  {| inherited := fun v key =>
       match v with
       | JHost _ => Normal JUndefined
       | _ =>
           if existsb (String.eqb key) Object_prototype_members
           then Normal (JHost 1)
           else Normal JUndefined
       end;
     host_to_string := fun _ => Normal "function () { [native code] }" |}.


(* ===================================================================== *)
(** ** Notions used to state the properties *)
(* ===================================================================== *)

(** The [n] most recent elements of a sequence in arrival order. *)
Definition lastN {A : Type} (n : nat) (l : list A) : list A :=
  skipn (List.length l - n) l.

(** A buffer after a sequence of successful polls that all captured the
    same [maxDataPoints]. *)
Definition appendAll (maxDataPoints : number) (points : list DataPoint)
  (buffer : list DataPoint) : list DataPoint :=
  fold_left (fun d p => appendDataPoint maxDataPoints p d) points buffer.

(** The response of the first bundled example, and a reading of the
    clock. *)
Definition coindesk_body : JSValue :=
  JObject [("bpi", JObject [("USD", JObject
    [("rate_float", JNumber (of_decimal false 6789012 (-2)))])])].

Definition coindesk_response : Response :=
  {| ok := true; status := of_Z 200; json := Normal coindesk_body |}.

Definition ten_o_clock : Clock :=
  {| localeTimeString := "10:00:00"; now := 36000000 |}.

(** "Actualizar una vez", and the request settling with that response. *)
Definition poll_once : list Event :=
  [ClickFetchOnce; FetchSettles 0 (Normal coindesk_response) ten_o_clock].

(** The values whose conversion to a string cannot throw: no built-in
    object, and no mapping with an own entry named [toString] where
    [Array.prototype.join] converts an element. *)
Fixpoint stringifies (v : JSValue) : bool :=
  match v with
  | JArray elems =>
      forallb (fun e => match e with
                        | JUndefined | JNull => true
                        | _ => stringifies e
                        end) elems
  | JObject fields =>
      match lookup_field "toString" fields with
      | Some _ => false
      | None => true
      end
  | JHost _ => false
  | _ => true
  end.

(** Induction on values, through the elements of arrays and the entries
    of mappings. *)
Section JSValueInduction.

Variable P : JSValue -> Prop.

Hypothesis P_undefined : P JUndefined.
Hypothesis P_null : P JNull.
Hypothesis P_bool : forall b, P (JBool b).
Hypothesis P_number : forall n, P (JNumber n).
Hypothesis P_string : forall s, P (JString s).
Hypothesis P_array : forall elems, Forall P elems -> P (JArray elems).
Hypothesis P_object :
  forall fields, Forall (fun kv => P (snd kv)) fields -> P (JObject fields).
Hypothesis P_host : forall id, P (JHost id).

Fixpoint JSValue_nested_ind (v : JSValue) : P v :=
  match v with
  | JUndefined => P_undefined
  | JNull => P_null
  | JBool b => P_bool b
  | JNumber n => P_number n
  | JString s => P_string s
  | JArray elems =>
      P_array elems
        ((fix all (l : list JSValue) : Forall P l :=
            match l with
            | [] => Forall_nil P
            | e :: rest => Forall_cons e (JSValue_nested_ind e) (all rest)
            end) elems)
  | JObject fields =>
      P_object fields
        ((fix all (l : list (string * JSValue))
            : Forall (fun kv => P (snd kv)) l :=
            match l with
            | [] => Forall_nil _
            | kv :: rest =>
                Forall_cons kv (JSValue_nested_ind (snd kv)) (all rest)
            end) fields)
  | JHost id => P_host id
  end.

End JSValueInduction.

(** No argument is [NaN]. *)
Definition no_NaN (args : list number) : Prop :=
  forall x, In x args -> is_nan x = false.

(** A sample with the given numeric value. *)
Definition sample_of (v : number) : DataPoint :=
  {| timestamp := "10:00:00"; value := v; fullData := JNumber v |}.

(** The mode has one control, the button of App.js, line 164, which reads
    "Iniciar" while paused and "Pausar" while live.  Starting is pressing
    it while paused, stopping is pressing it while live; in the other mode
    there is nothing to press. *)
Definition start (host : Host) (r : Runtime) : Runtime :=
  if isLive (state r) then r else step host r ClickToggleLive.

Definition stop (host : Host) (r : Runtime) : Runtime :=
  if isLive (state r) then step host r ClickToggleLive else r.

(** What the effect maintains: while live the one armed timer is the one
    of the last run of the effect, with the period and the closure of the
    current render; while paused no timer is armed; handles are fresh. *)
Definition timers_in_step (r : Runtime) : Prop :=
  (if isLive (state r) then
     exists id,
       intervalId r = Some id
       /\ timers r = [ {| timer_id := id;
                          period := refreshInterval (state r);
                          callback := config_of (state r) |} ]
   else intervalId r = None /\ timers r = [])
  /\ (forall t, In t (timers r) -> (timer_id t < next_id r)%positive).

(** Case analysis on the comparisons inside [SFcompare], and on a number. *)
Ltac compare_cases :=
  repeat match goal with
         | H : context [Z.compare ?a ?b] |- _ =>
             destruct (Z.compare_spec a b)
         | |- context [Z.compare ?a ?b] =>
             destruct (Z.compare_spec a b)
         | H : context [Pos.compare ?a ?b] |- _ =>
             destruct (Pos.compare_spec a b)
         | |- context [Pos.compare ?a ?b] =>
             destruct (Pos.compare_spec a b)
         end;
  subst; simpl in *; try reflexivity; try discriminate; try lia.

Ltac number_cases x :=
  let s := fresh "s" in
  destruct x as [s | s | | s ? ?]; try destruct s.

(* ===================================================================== *)
(** ** Further notions: paths as key sequences, the rendered table *)
(* ===================================================================== *)

Definition num_sub : number -> number -> number := SFsub prec emax.
Definition num_mul : number -> number -> number := SFmul prec emax.
Definition num_leb : number -> number -> bool := SFleb.

Definition is_finite (x : number) : bool :=
  match x with S754_finite _ _ _ => true | _ => false end.

Fixpoint dot_free (s : string) : bool :=
  match s with
  | EmptyString => true
  | String c rest => negb (Ascii.eqb c ".") && dot_free rest
  end.

(** Descent through nested mappings by their own entries: [None] as soon
    as a key is missing or the value reached is not a mapping. *)
Fixpoint descend (keys : list string) (v : JSValue) : option JSValue :=
  match keys with
  | [] => Some v
  | key :: rest =>
      match v with
      | JObject fields =>
          match lookup_field key fields with
          | Some w => descend rest w
          | None => None
          end
      | _ => None
      end
  end.

(** [Number.prototype.toFixed] for [0 <= fractionDigits <= 100]: the
    integer [n] with [n / 10^fractionDigits] nearest to [x], the larger one
    of two, written with that many decimals. *)
Definition toFixed (fractionDigits : Z) (x : number) : string :=
  match x with
  | S754_finite negative m e =>
      let '(num, den) :=
        if 0 <=? e then (Zpos m * 2 ^ e, 1) else (Zpos m, 2 ^ (- e)) in
      let sign := if negative then "-" else "" in
      if 10 ^ 21 * den <=? num then
        (sign ++ number_to_string (S754_finite false m e))%string
      else
        let n := (2 * num * 10 ^ fractionDigits + den) / (2 * den) in
        let digits := decimal_string n in
        let k := Z.of_nat (String.length digits) in
        let padded :=
          if k <=? fractionDigits
          then (zeros (Z.to_nat (fractionDigits + 1 - k)) ++ digits)%string
          else digits in
        let k' := Z.of_nat (String.length padded) in
        if fractionDigits =? 0 then (sign ++ padded)%string
        else
          (sign ++ substring 0 (Z.to_nat (k' - fractionDigits)) padded ++ "."
             ++ substring (Z.to_nat (k' - fractionDigits))
                  (Z.to_nat fractionDigits) padded)%string
  | S754_zero _ =>
      if fractionDigits =? 0 then "0"
      else ("0." ++ zeros (Z.to_nat fractionDigits))%string
  | _ => number_to_string x
  end.

(** The rows of the table "Datos recientes", App.js, lines 339-362:
    [data.slice(-10).reverse()], each row the timestamp and
    [value.toFixed(2)]; [None] where nothing is rendered. *)
Definition dataTable (data : list DataPoint) : option (list (string * string)) :=
  if (0 <? List.length data)%nat then
    Some (map (fun point => (timestamp point, toFixed 2 (value point)))
            (rev (slice (num_neg (of_Z 10)) data)))
  else None.

(* ===================================================================== *)
(** ** The function plotter: [FunctionVisualizer], App.js, lines 370-551 *)
(* ===================================================================== *)

Module FunctionVisualizer.

(** A plotted point, App.js, lines 385-389. *)
Record Point : Type := {
  x : number;
  fx : number;
  derivative : number
}.

(** The [useState] cells, App.js, lines 371-374; [None] is [null]. *)
Record State : Type := {
  xMin : number;
  xMax : number;
  showDerivative : bool;
  hoveredPoint : option Point
}.

Definition initialState : State :=
  {| xMin := of_decimal false 1 (-1);
     xMax := of_Z 5;
     showDerivative := false;
     hoveredPoint := None |}.

Definition setXMin (v : number) (s : State) : State :=
  {| xMin := v; xMax := xMax s;
     showDerivative := showDerivative s; hoveredPoint := hoveredPoint s |}.

Definition setXMax (v : number) (s : State) : State :=
  {| xMin := xMin s; xMax := v;
     showDerivative := showDerivative s; hoveredPoint := hoveredPoint s |}.

Definition setShowDerivative (b : bool) (s : State) : State :=
  {| xMin := xMin s; xMax := xMax s;
     showDerivative := b; hoveredPoint := hoveredPoint s |}.

(** The literal [0.01] of lines 399 and 406. *)
Definition one_hundredth : number := of_decimal false 1 (-2).

(** App.js, lines 396-401.  Both setters are called with values computed
    from the state of the render. *)
Definition zoomIn (s : State) : State :=
  let center := num_div (num_add (xMin s) (xMax s)) (of_Z 2) in
  let range := num_div (num_sub (xMax s) (xMin s)) (of_Z 2) in
  setXMax (num_add center (num_div range (of_Z 2)))
    (setXMin (Math_max [one_hundredth; num_sub center (num_div range (of_Z 2))]) s).

(** App.js, lines 403-408. *)
Definition zoomOut (s : State) : State :=
  let center := num_div (num_add (xMin s) (xMax s)) (of_Z 2) in
  let range := num_mul (num_sub (xMax s) (xMin s)) (of_Z 2) in
  setXMax (num_add center (num_div range (of_Z 2)))
    (setXMin (Math_max [one_hundredth; num_sub center (num_div range (of_Z 2))]) s).

(** App.js, lines 410-413. *)
Definition resetView (s : State) : State :=
  setXMax (of_Z 5) (setXMin (of_decimal false 1 (-1)) s).

(** What the user does: the three buttons, the checkbox, and the two range
    inputs, whose handlers receive [e.target.value] as a string
    (lines 484 and 498). *)
Inductive Event : Type :=
| ClickZoomIn
| ClickZoomOut
| ClickReset
| ToggleDerivative (checked : bool)
| SlideXMin (value : string)
| SlideXMax (value : string).

Definition handle (s : State) (ev : Event) : State :=
  match ev with
  | ClickZoomIn => zoomIn s
  | ClickZoomOut => zoomOut s
  | ClickReset => resetView s
  | ToggleDerivative checked => setShowDerivative checked s
  | SlideXMin value => setXMin (parseFloat_string value) s
  | SlideXMax value => setXMax (parseFloat_string value) s
  end.

Definition run (s : State) (evs : list Event) : State := fold_left handle evs s.

Section Sampling.

(** [Math.log], which ECMA-262 leaves to the implementation to
    approximate. *)
Variable Math_log : number -> number.

(** The object pushed at lines 385-389 for the abscissa [x0]. *)
Definition pointAt (x0 : number) : Point :=
  let fx0 := num_mul x0 (Math_log x0) in
  let derivative0 := num_add (Math_log x0) (of_Z 1) in
  {| x := parseFloat_string (toFixed 3 x0);
     fx := parseFloat_string (toFixed 3 fx0);
     derivative := parseFloat_string (toFixed 3 derivative0) |}.

(** The [for] loop of lines 380-391, from the current [x0]: [None] when
    the loop is still running after [fuel] tests of its condition. *)
Fixpoint sampleFrom (fuel : nat) (x0 xMax0 step : number) (points : list Point)
  : option (list Point) :=
  match fuel with
  | O => None
  | S fuel' =>
      if num_leb x0 xMax0 then
        let points' :=
          if num_ltb (of_Z 0) x0 then points ++ [pointAt x0] else points in
        sampleFrom fuel' (num_add x0 step) xMax0 step points'
      else Some points
  end.

(** The [useMemo] of lines 376-394. *)
Definition data (fuel : nat) (s : State) : option (list Point) :=
  let step := num_div (num_sub (xMax s) (xMin s)) (of_Z 200) in
  sampleFrom fuel (xMin s) (xMax s) step [].

End Sampling.

End FunctionVisualizer.

(* ===================================================================== *)
(** ** Notions used to state the properties of the event loop *)
(* ===================================================================== *)

(** The events whose handlers call [setData], [setError] or
    [setLastUpdate]. *)
Definition touches_samples (ev : Event) : bool :=
  match ev with
  | ClickClear | ClickExample _ | FetchSettles _ _ _ => true
  | _ => false
  end.

(** The events that only edit the configuration. *)
Definition edits_configuration (ev : Event) : bool :=
  match ev with
  | SelectInterval _ | EditApiUrl _ | EditJsonPath _ | EditMaxDataPoints _ => true
  | _ => false
  end.

(** A maximum whose integer value lies between 1 and [B]. *)
Definition capacity_within (B : Z) (n : number) : Prop :=
  exists k, ToIntegerOrInfinity n = Int k /\ 1 <= k <= B.

(** Every maximum in use (configured, captured by a pending poll or by an
    armed timer) lies between 1 and [B], and the buffer holds at most [B]
    samples. *)
Definition bounded_by (B : Z) (r : Runtime) : Prop :=
  capacity_within B (maxDataPoints (state r))
  /\ Forall (fun cfg => capacity_within B (cfg_maxDataPoints cfg)) (pending r)
  /\ Forall (fun t => capacity_within B (cfg_maxDataPoints (callback t)))
       (timers r)
  /\ (List.length (data (state r)) <= Z.to_nat B)%nat.

(** One digit of a decimal numeral read by [take_digits]; [IH] is the
    statement for the digits that follow. *)
Ltac read_digit d IH :=
  let ds := fresh "ds" in
  let Htake := fresh "Htake" in
  let Hacc := fresh "Hacc" in
  let Hzero := fresh "Hzero" in
  destruct IH as (ds & Htake & Hacc & Hzero);
  exists (d :: ds);
  cbn [NilEmpty.string_of_uint take_digits];
  match goal with
  | |- context [digit_of ?c] => change (digit_of c) with (Some d)
  end;
  rewrite Htake;
  split; [reflexivity | split];
  [ intros acc; cbn [fold_left Pos.of_uint_acc]; rewrite <- Hacc;
    f_equal; lia
  | cbn [fold_left Pos.of_uint Z.of_N];
    first [ exact Hzero | rewrite <- Hacc; reflexivity ] ].
(* ===================================================================== *)
(** ** The embedding on examples *)
(* ===================================================================== *)

Example split_path :
  split "." "bpi.USD.rate_float" = ["bpi"; "USD"; "rate_float"]
  /\ split "." "a..b" = ["a"; ""; "b"]
  /\ split "." "" = [""].
Proof. repeat split. Qed.

Example parseFloat_string_examples :
  parseFloat_string "0.1" = S754_finite false 7205759403792794 (-56)
  /\ parseFloat_string "  -2.5e1px" = of_Z (-25)
  /\ parseFloat_string "1e" = of_Z 1
  /\ parseFloat_string ".5" = num_div (of_Z 1) (of_Z 2)
  /\ parseFloat_string "-0" = NegZero
  /\ parseFloat_string "Infinity!" = Infinity
  /\ parseFloat_string "1e999" = Infinity
  /\ parseFloat_string "9007199254740993" = of_Z 9007199254740992
  /\ parseFloat_string "undefined" = NaN
  /\ parseFloat_string "." = NaN
  /\ parseFloat_string "" = NaN
  /\ parseFloat_string "0x10" = PosZero.
Proof. vm_compute. repeat split. Qed.

Example number_to_string_examples :
  map number_to_string
    [ of_Z 200; of_decimal false 6789012 (-2); of_decimal false 1 (-1);
      num_add (of_decimal false 1 (-1)) (of_decimal false 2 (-1));
      num_div (of_Z 1) (of_Z 3); of_decimal false 1 21; of_decimal false 1 (-7);
      of_decimal true 25 (-1); of_decimal false 5 (-324); of_decimal false 1 23;
      NaN; NegZero; NegInfinity ]
  = [ "200"; "67890.12"; "0.1"; "0.30000000000000004"; "0.3333333333333333";
      "1e+21"; "1e-7"; "-2.5"; "5e-324"; "1e+23"; "NaN"; "0"; "-Infinity" ].
Proof. vm_compute. reflexivity. Qed.

Example extract_examples :
  getValueFromPath plain_host coindesk_body "bpi.USD.rate_float"
  = Normal (JNumber (of_decimal false 6789012 (-2)))
  /\ getValueFromPath plain_host
       (JObject [("a", JObject [("b", JNumber (of_Z 5))])]) "a.b"
     = Normal (JNumber (of_Z 5))
  /\ getValueFromPath plain_host
       (JObject [("results",
                  JArray [JObject [("login", JObject [("uuid", JString "7a0e")])]])])
       "results[0].login.uuid"
     = Normal JUndefined
  /\ getValueFromPath plain_host
       (JObject [("results",
                  JArray [JObject [("login", JObject [("uuid", JString "7a0e")])]])])
       "results.0.login.uuid"
     = Normal (JString "7a0e")
  /\ getValueFromPath plain_host (JObject [("name", JString "Ada")]) "name.length"
     = Normal (JNumber (of_Z 3))
  /\ getValueFromPath plain_host (JObject [("a", JNull)]) "a.b" = Normal JNull
  /\ getValueFromPath plain_host (JObject []) "constructor" = Normal (JHost 1).
Proof. vm_compute. repeat split. Qed.

Example dataPointValue_examples :
  dataPointValue plain_host (JNumber (of_Z 7)) = Normal (of_Z 7)
  /\ dataPointValue plain_host (JString "12.5 USD") = Normal (of_decimal false 125 (-1))
  /\ dataPointValue plain_host JUndefined = Normal PosZero
  /\ dataPointValue plain_host JNull = Normal PosZero
  /\ dataPointValue plain_host (JBool true) = Normal PosZero
  /\ dataPointValue plain_host (JObject [("b", JNumber (of_Z 5))]) = Normal PosZero
  /\ dataPointValue plain_host (JArray [JNumber (of_Z 3); JNumber (of_Z 4)])
     = Normal (of_Z 3)
  /\ dataPointValue plain_host (JArray []) = Normal PosZero.
Proof. vm_compute. repeat split. Qed.

Example slice_examples :
  slice (num_neg (of_Z 2)) [1; 2; 3] = [2; 3]
  /\ slice (num_neg (of_Z 5)) [1; 2; 3] = [1; 2; 3]
  /\ slice (num_neg (of_decimal false 25 (-1))) [1; 2; 3] = [2; 3]
  /\ slice (num_neg (of_Z 0)) [1; 2; 3] = [1; 2; 3]
  /\ slice (of_Z 1) [1; 2; 3] = [2; 3].
Proof. vm_compute. repeat split. Qed.

(* ===================================================================== *)
(** ** Extraction: properties of [getValueFromPath] *)
(* ===================================================================== *)

Section ExtractionFacts.

Variable host : Host.

Lemma getValueFromPath_nonempty (obj : JSValue) (path : string) :
  path <> "" ->
  getValueFromPath host obj path = reduce (and_then_get host) (split "." path) obj.
Proof.
  intros Hne. unfold getValueFromPath. simpl.
  destruct (String.eqb_spec path "") as [E | _]; [contradiction | reflexivity].
Qed.

Lemma reduce_app {A B : Type} (f : B -> A -> completion B) (l1 l2 : list A)
  (init : B) :
  reduce f (l1 ++ l2) init = (acc <- reduce f l1 init ;; reduce f l2 acc).
Proof.
  revert init. induction l1 as [| x l1 IH]; intros init; simpl.
  - reflexivity.
  - destruct (f init x) as [b | m]; simpl; [apply IH | reflexivity].
Qed.

(** Once the accumulator is falsy, [acc && acc[part]] keeps it to the end
    of the path. *)
Lemma reduce_falsy (parts : list string) (acc : JSValue) :
  ToBoolean acc = false ->
  reduce (and_then_get host) parts acc = Normal acc.
Proof.
  intros Hf. induction parts as [| p parts IH]; simpl.
  - reflexivity.
  - unfold and_then_get at 1. rewrite Hf. simpl. exact IH.
Qed.

Lemma and_then_get_missing (cur : JSValue) (seg : string) :
  ToBoolean cur = true ->
  GetOwnProperty cur seg = None ->
  inherited host cur seg = Normal JUndefined ->
  and_then_get host cur seg = Normal JUndefined.
Proof.
  intros Ht Hown Hinh. unfold and_then_get, Get. now rewrite Ht, Hown.
Qed.

Lemma getValueFromPath_at (root : JSValue) (path : string)
  (pre post : list string) (seg : string) (cur : JSValue) :
  path <> "" ->
  split "." path = pre ++ seg :: post ->
  reduce (and_then_get host) pre root = Normal cur ->
  getValueFromPath host root path
  = (next <- and_then_get host cur seg ;; reduce (and_then_get host) post next).
Proof.
  intros Hne Hsplit Hpre.
  rewrite getValueFromPath_nonempty by assumption.
  rewrite Hsplit, reduce_app, Hpre. reflexivity.
Qed.

End ExtractionFacts.

(** C9.  For every value [v], extraction with the empty path returns [v]
    itself: [getValueFromPath(v, "") = v]. *)
Theorem C9_empty_path_is_identity :
  forall (host : Host) (v : JSValue), getValueFromPath host v "" = Normal v.
Proof.
  intros host v. reflexivity.
Qed.

(** C1 as stated fails: in [{a: 0}] the path ["a.b"] reaches the number 0,
    which is not a mapping, and the result is that 0 and not [undefined]. *)
Lemma C1_counterexample :
  reduce (and_then_get plain_host) ["a"] (JObject [("a", JNumber PosZero)])
  = Normal (JNumber PosZero)
  /\ getValueFromPath plain_host (JObject [("a", JNumber PosZero)]) "a.b"
     = Normal (JNumber PosZero)
  /\ getValueFromPath plain_host (JObject [("a", JNumber PosZero)]) "a.b"
     <> Normal JUndefined.
Proof.
  repeat split; try reflexivity. discriminate.
Qed.

(** C1, amended.  For every root value and every non-empty dot-path, at
    each traversal step, with [cur] the current value and [seg] the
    segment: if [cur] is falsy ([undefined], [null], [false], a zero, [NaN]
    or the empty string) the result of the extraction is [cur] itself and
    no later segment is applied; if [cur] is truthy and has no property
    named [seg] (no own property and no inherited member), in particular
    if [cur] is a mapping with no entry for [seg], the result is
    [undefined]; a segment such as [results[0]] is looked up as that
    literal key; and [getValueFromPath({a: {b: 5}}, "a.c")] is [undefined]. *)
Theorem C1_extraction_stops_where_lookup_fails :
  forall (host : Host) (root : JSValue) (path : string)
         (pre post : list string) (seg : string) (cur : JSValue),
    path <> "" ->
    split "." path = pre ++ seg :: post ->
    reduce (and_then_get host) pre root = Normal cur ->
    (ToBoolean cur = false ->
     getValueFromPath host root path = Normal cur)
    /\ (ToBoolean cur = true ->
        GetOwnProperty cur seg = None ->
        inherited host cur seg = Normal JUndefined ->
        getValueFromPath host root path = Normal JUndefined)
    /\ (forall fields,
        cur = JObject fields ->
        lookup_field seg fields = None ->
        inherited host cur seg = Normal JUndefined ->
        getValueFromPath host root path = Normal JUndefined)
    /\ (forall elems,
        inherited host (JObject [("results", JArray elems)]) "results[0]"
        = Normal JUndefined ->
        getValueFromPath host (JObject [("results", JArray elems)]) "results[0]"
        = Normal JUndefined)
    /\ (inherited host (JObject [("b", JNumber (of_Z 5))]) "c" = Normal JUndefined ->
        getValueFromPath host
          (JObject [("a", JObject [("b", JNumber (of_Z 5))])]) "a.c"
        = Normal JUndefined).
Proof.
  intros host root path pre post seg cur Hne Hsplit Hpre.
  pose proof (getValueFromPath_at host root path pre post seg cur
                Hne Hsplit Hpre) as Hat.
  assert (Hmiss : ToBoolean cur = true -> GetOwnProperty cur seg = None ->
                  inherited host cur seg = Normal JUndefined ->
                  getValueFromPath host root path = Normal JUndefined).
  { intros Ht Hown Hinh. rewrite Hat.
    rewrite (and_then_get_missing host cur seg Ht Hown Hinh). simpl.
    now apply reduce_falsy. }
  repeat split.
  - intros Hf. rewrite Hat. unfold and_then_get at 1. rewrite Hf. simpl.
    now apply reduce_falsy.
  - exact Hmiss.
  - intros fields -> Hlook Hinh. now apply Hmiss.
  - intros elems Hinh. unfold getValueFromPath. simpl.
    unfold and_then_get, Get. simpl. now rewrite Hinh.
  - intros Hinh. unfold getValueFromPath. simpl.
    unfold and_then_get at 1. unfold Get. simpl.
    unfold and_then_get, Get. simpl. now rewrite Hinh.
Qed.

Lemma C1_witness :
  getValueFromPath plain_host
    (JObject [("a", JObject [("b", JNumber (of_Z 5))])]) "a.c"
  = Normal JUndefined.
Proof.
  apply (C1_extraction_stops_where_lookup_fails plain_host
           (JObject [("a", JObject [("b", JNumber (of_Z 5))])]) "a.c"
           ["a"] [] "c" (JObject [("b", JNumber (of_Z 5))]));
    try reflexivity; discriminate.
Defined.

(* ===================================================================== *)
(** ** The series buffer: properties of [slice] and [appendDataPoint] *)
(* ===================================================================== *)

Lemma ToIntegerOrInfinity_neg (x : number) (N : Z) :
  ToIntegerOrInfinity x = Int N ->
  ToIntegerOrInfinity (num_neg x) = Int (- N).
Proof.
  destruct x as [s | s | | s m e]; simpl.
  - intros [= <-]. reflexivity.
  - destruct s; discriminate.
  - intros [= <-]. reflexivity.
  - destruct s; intros [= <-]; simpl; now rewrite ?Z.opp_involutive.
Qed.

(** With a capacity of at least one, [slice(-maxDataPoints)] keeps the
    most recent elements. *)
Lemma slice_neg_lastN {A : Type} (maxDataPoints : number) (N : Z) (l : list A) :
  ToIntegerOrInfinity maxDataPoints = Int N ->
  1 <= N ->
  slice (num_neg maxDataPoints) l = lastN (Z.to_nat N) l.
Proof.
  intros Hcap HN. unfold slice, lastN.
  rewrite (ToIntegerOrInfinity_neg _ _ Hcap).
  destruct (Z.ltb_spec (- N) 0) as [_ | Hge]; [| lia].
  f_equal. lia.
Qed.

Lemma appendDataPoint_lastN (maxDataPoints : number) (N : Z) (p : DataPoint)
  (d : list DataPoint) :
  ToIntegerOrInfinity maxDataPoints = Int N ->
  1 <= N ->
  appendDataPoint maxDataPoints p d = lastN (Z.to_nat N) (d ++ [p]).
Proof.
  intros Hcap HN. unfold appendDataPoint. now apply slice_neg_lastN.
Qed.

Lemma length_lastN {A : Type} (n : nat) (l : list A) :
  List.length (lastN n l) = Nat.min n (List.length l).
Proof.
  unfold lastN. rewrite length_skipn. lia.
Qed.

Lemma lastN_all {A : Type} (n : nat) (l : list A) :
  (List.length l <= n)%nat -> lastN n l = l.
Proof.
  intros H. unfold lastN. replace (List.length l - n)%nat with 0%nat by lia.
  reflexivity.
Qed.

Lemma lastN_app {A : Type} (n : nat) (l1 l2 : list A) :
  (n <= List.length l2)%nat -> lastN n (l1 ++ l2) = lastN n l2.
Proof.
  intros H. unfold lastN. rewrite length_app, skipn_app.
  rewrite skipn_all2 by lia. simpl. f_equal. lia.
Qed.

Lemma lastN_snoc {A : Type} (n : nat) (l : list A) (x : A) :
  lastN (S n) (l ++ [x]) = lastN n l ++ [x].
Proof.
  unfold lastN. rewrite length_app, skipn_app. simpl.
  replace (List.length l + 1 - S n)%nat with (List.length l - n)%nat by lia.
  replace (List.length l - n - List.length l)%nat with 0%nat by lia.
  reflexivity.
Qed.

Lemma lastN_lastN {A : Type} (n m : nat) (l : list A) :
  (n <= m)%nat -> lastN n (lastN m l) = lastN n l.
Proof.
  intros H. unfold lastN. rewrite length_skipn, skipn_skipn. f_equal. lia.
Qed.

Lemma lastN_app_short {A : Type} (n : nat) (l1 l2 : list A) :
  (List.length l2 <= n)%nat ->
  lastN n (l1 ++ l2) = lastN (n - List.length l2) l1 ++ l2.
Proof.
  intros H. unfold lastN. rewrite length_app, skipn_app.
  replace (List.length l1 + List.length l2 - n - List.length l1)%nat
    with 0%nat by lia.
  simpl. f_equal. f_equal. lia.
Qed.

(** Trimming before more elements arrive changes nothing. *)
Lemma lastN_lastN_app {A : Type} (n : nat) (l1 l2 : list A) :
  lastN n (lastN n l1 ++ l2) = lastN n (l1 ++ l2).
Proof.
  destruct (Nat.le_gt_cases n (List.length l2)) as [Hlong | Hshort].
  - now rewrite !lastN_app by assumption.
  - rewrite !lastN_app_short by lia. f_equal. apply lastN_lastN. lia.
Qed.

(** The buffer after a run of appends is the tail of everything that
    arrived. *)
Lemma appendAll_lastN (maxDataPoints : number) (N : Z)
  (points init : list DataPoint) :
  ToIntegerOrInfinity maxDataPoints = Int N ->
  1 <= N ->
  (List.length init <= Z.to_nat N)%nat ->
  appendAll maxDataPoints points init = lastN (Z.to_nat N) (init ++ points).
Proof.
  intros Hcap HN. unfold appendAll.
  revert init. induction points as [| p points IH]; intros init Hinit; simpl.
  - rewrite app_nil_r. symmetry. now apply lastN_all.
  - rewrite (appendDataPoint_lastN _ N) by assumption.
    rewrite IH by (rewrite length_lastN; lia).
    rewrite lastN_lastN_app. now rewrite <- app_assoc.
Qed.

(** With [maxDataPoints] zero (the field emptied), [slice(-0)] is
    [slice(0)] and nothing is evicted. *)
Remark appendDataPoint_zero (p : DataPoint) (d : list DataPoint) :
  appendDataPoint PosZero p d = d ++ [p].
Proof.
  unfold appendDataPoint, slice. simpl.
  rewrite Z.min_l by lia. reflexivity.
Qed.

(** C4.  For a buffer of capacity [N >= 1] (the integer value of
    [maxDataPoints]) that holds at most [N] samples, after every sequence
    of appends the length is at most [N]; an append to a buffer that is not
    full evicts nothing, an append to a full buffer evicts exactly the
    oldest sample; the buffer holds the most recent samples in arrival
    order, and after [N] or more appends exactly the last [N] appended. *)
Theorem C4_buffer_bounded_and_fifo :
  forall (maxDataPoints : number) (N : Z) (points init : list DataPoint),
    ToIntegerOrInfinity maxDataPoints = Int N ->
    1 <= N ->
    (List.length init <= Z.to_nat N)%nat ->
    let buffer := appendAll maxDataPoints points init in
    (List.length buffer <= Z.to_nat N)%nat
    /\ buffer = lastN (Z.to_nat N) (init ++ points)
    /\ (forall p, (List.length buffer < Z.to_nat N)%nat ->
                  appendDataPoint maxDataPoints p buffer = buffer ++ [p])
    /\ (forall p, List.length buffer = Z.to_nat N ->
                  appendDataPoint maxDataPoints p buffer = tl buffer ++ [p])
    /\ ((Z.to_nat N <= List.length points)%nat ->
        List.length buffer = Z.to_nat N
        /\ buffer = lastN (Z.to_nat N) points).
Proof.
  intros maxDataPoints N points init Hcap HN Hinit buffer.
  assert (Hbuf : buffer = lastN (Z.to_nat N) (init ++ points))
    by (now apply appendAll_lastN).
  assert (Hlen : (List.length buffer <= Z.to_nat N)%nat)
    by (rewrite Hbuf, length_lastN; lia).
  repeat split; try assumption.
  - intros p Hroom. rewrite (appendDataPoint_lastN _ N) by assumption.
    apply lastN_all. rewrite length_app. simpl. lia.
  - intros p Hfull. rewrite (appendDataPoint_lastN _ N) by assumption.
    unfold lastN. rewrite length_app, Hfull. simpl.
    replace (Z.to_nat N + 1 - Z.to_nat N)%nat with 1%nat by lia.
    destruct buffer as [| b buffer']; [simpl in Hfull; lia | reflexivity].
  - rewrite Hbuf, length_lastN, length_app. lia.
  - rewrite Hbuf. now apply lastN_app.
Qed.

Lemma C4_witness :
  let p1 := {| timestamp := "10:00:00"; value := of_Z 1; fullData := JNull |} in
  let p2 := {| timestamp := "10:00:05"; value := of_Z 2; fullData := JNull |} in
  let p3 := {| timestamp := "10:00:10"; value := of_Z 3; fullData := JNull |} in
  appendAll (of_Z 2) [p1; p2; p3] [] = [p2; p3].
Proof.
  intros p1 p2 p3.
  destruct (C4_buffer_bounded_and_fifo (of_Z 2) 2 [p1; p2; p3] [])
    as (_ & _ & _ & _ & Hlast).
  - reflexivity.
  - lia.
  - simpl. lia.
  - destruct Hlast as [_ ->]; [simpl; lia | reflexivity].
Defined.

(* ===================================================================== *)
(** ** The handlers and the event loop *)
(* ===================================================================== *)

(** Rendering and running the effect leave the state as the handler set
    it. *)
Lemma state_commit (before : State) (r : Runtime) :
  state (commit before r) = state r.
Proof.
  unfold commit, effect, cleanup, clearInterval.
  destruct (deps_eq_dec _ _); [reflexivity |].
  destruct (intervalId r); simpl; now destruct (isLive (state r)).
Qed.

Lemma state_step (host : Host) (r : Runtime) (ev : Event) :
  state (step host r ev) = state (handle host ev r).
Proof.
  apply state_commit.
Qed.

(** A poll either runs its [try] block to the end or stores the message
    of what was thrown. *)
Lemma fetchData_outcome (host : Host) (cfg : Config)
  (fetched : completion Response) (clock : Clock) (s : State) :
  (exists updates, fetchData_try host cfg fetched clock = Normal updates
                   /\ fetchData host cfg fetched clock s = Normal (updates s))
  \/ (exists message, fetchData_try host cfg fetched clock = Throw message
                      /\ fetchData host cfg fetched clock s
                         = Normal (setError (Some message) s)).
Proof.
  unfold fetchData.
  destruct (fetchData_try host cfg fetched clock) as [updates | message]; simpl.
  - left. now exists updates.
  - right. now exists message.
Qed.

(** The updates a successful [try] block ends with. *)
Lemma fetchData_try_updates (host : Host) (cfg : Config)
  (fetched : completion Response) (clock : Clock) (updates : State -> State) :
  fetchData_try host cfg fetched clock = Normal updates ->
  exists response body extracted v,
    fetched = Normal response /\ ok response = true
    /\ json response = Normal body
    /\ getValueFromPath host body (cfg_jsonPath cfg) = Normal extracted
    /\ dataPointValue host extracted = Normal v
    /\ updates = (fun s =>
         setError None
           (setLastUpdate (Some (now clock))
              (setData
                 (appendDataPoint (cfg_maxDataPoints cfg)
                    {| timestamp := localeTimeString clock;
                       value := v; fullData := body |}) s))).
Proof.
  unfold fetchData_try.
  destruct fetched as [response | m]; simpl; [| discriminate].
  destruct (ok response) eqn:Hok; simpl; [| discriminate].
  destruct (json response) as [body | m] eqn:Hjson; simpl; [| discriminate].
  destruct (getValueFromPath host body (cfg_jsonPath cfg))
    as [extracted | m] eqn:Hget; simpl; [| discriminate].
  destruct (dataPointValue host extracted) as [v | m] eqn:Hval;
    simpl; [| discriminate].
  intros [= <-]. exists response, body, extracted, v. repeat split; assumption.
Qed.

(** C6.  Every poll step completes normally: nothing is thrown past
    [fetchData].  When the request, the status check, the body, the
    extraction and the coercion all succeed, the new sample is appended by
    the updater (with a capacity of at least one it is the last element of
    the buffer) and [error] is cleared, whatever it was before, so a
    successful poll after a failed one clears the stored message.  When
    the request is rejected, the status is not a success status, or any
    later step throws, [error] is set to the message and the buffer is
    unchanged. *)
Theorem C6_poll_step_outcomes :
  forall (host : Host) (cfg : Config) (fetched : completion Response)
         (clock : Clock) (s : State),
    (exists s', fetchData host cfg fetched clock s = Normal s')
    /\ (forall response body extracted v,
          fetched = Normal response ->
          ok response = true ->
          json response = Normal body ->
          getValueFromPath host body (cfg_jsonPath cfg) = Normal extracted ->
          dataPointValue host extracted = Normal v ->
          exists s',
            fetchData host cfg fetched clock s = Normal s'
            /\ data s'
               = appendDataPoint (cfg_maxDataPoints cfg)
                   {| timestamp := localeTimeString clock;
                      value := v; fullData := body |} (data s)
            /\ error s' = None
            /\ (forall N,
                  ToIntegerOrInfinity (cfg_maxDataPoints cfg) = Int N ->
                  1 <= N ->
                  data s'
                  = lastN (Z.to_nat N - 1) (data s)
                      ++ [ {| timestamp := localeTimeString clock;
                              value := v; fullData := body |} ]))
    /\ (forall message,
          fetchData_try host cfg fetched clock = Throw message ->
          exists s',
            fetchData host cfg fetched clock s = Normal s'
            /\ error s' = Some message
            /\ data s' = data s)
    /\ (forall message,
          fetched = Throw message ->
          fetchData_try host cfg fetched clock = Throw message)
    /\ (forall response,
          fetched = Normal response ->
          ok response = false ->
          fetchData_try host cfg fetched clock
          = Throw ("HTTP error! status: "
                     ++ number_to_string (status response))%string)
    /\ (forall response message,
          fetched = Normal response ->
          ok response = true ->
          json response = Throw message ->
          fetchData_try host cfg fetched clock = Throw message)
    /\ (forall response body message,
          fetched = Normal response ->
          ok response = true ->
          json response = Normal body ->
          getValueFromPath host body (cfg_jsonPath cfg) = Throw message ->
          fetchData_try host cfg fetched clock = Throw message)
    /\ (forall response body extracted message,
          fetched = Normal response ->
          ok response = true ->
          json response = Normal body ->
          getValueFromPath host body (cfg_jsonPath cfg) = Normal extracted ->
          dataPointValue host extracted = Throw message ->
          fetchData_try host cfg fetched clock = Throw message).
Proof.
  intros host cfg fetched clock s.
  split; [| split; [| split; [| split; [| split; [| split; [| split]]]]]].
  - destruct (fetchData_outcome host cfg fetched clock s)
      as [(u & _ & H) | (m & _ & H)]; eauto.
  - intros response body extracted v -> Hok Hjson Hget Hval.
    eexists. split; [| split; [| split]].
    + unfold fetchData, fetchData_try. simpl.
      rewrite Hok, Hjson. simpl. rewrite Hget. simpl. rewrite Hval.
      reflexivity.
    + reflexivity.
    + reflexivity.
    + intros N Hcap HN. simpl.
      rewrite (appendDataPoint_lastN _ N) by assumption.
      destruct (Z.to_nat N) as [| n] eqn:En; [lia |].
      rewrite lastN_snoc. now rewrite Nat.sub_succ, Nat.sub_0_r.
  - intros message Htry. eexists. split; [| split].
    + unfold fetchData. rewrite Htry. reflexivity.
    + reflexivity.
    + reflexivity.
  - intros message ->. reflexivity.
  - intros response -> Hok. unfold fetchData_try. simpl. rewrite Hok.
    reflexivity.
  - intros response message -> Hok Hjson. unfold fetchData_try. simpl.
    rewrite Hok, Hjson. reflexivity.
  - intros response body message -> Hok Hjson Hget. unfold fetchData_try.
    simpl. rewrite Hok, Hjson. simpl. now rewrite Hget.
  - intros response body extracted message -> Hok Hjson Hget Hval.
    unfold fetchData_try. simpl. rewrite Hok, Hjson. simpl.
    rewrite Hget. simpl. now rewrite Hval.
Qed.

Lemma C6_witness :
  exists s',
    fetchData plain_host (config_of initialState) (Normal coindesk_response)
      ten_o_clock (setError (Some "Failed to fetch") initialState)
    = Normal s'
    /\ data s'
       = [ {| timestamp := "10:00:00";
              value := of_decimal false 6789012 (-2);
              fullData := coindesk_body |} ]
    /\ error s' = None.
Proof.
  destruct (C6_poll_step_outcomes plain_host (config_of initialState)
              (Normal coindesk_response) ten_o_clock
              (setError (Some "Failed to fetch") initialState))
    as (_ & Hsuccess & _).
  destruct (Hsuccess coindesk_response coindesk_body
              (JNumber (of_decimal false 6789012 (-2)))
              (of_decimal false 6789012 (-2)))
    as (s' & Hrun & Hdata & Herr & _); try reflexivity.
  exists s'. split; [exact Hrun | split; [| exact Herr]].
  rewrite Hdata. reflexivity.
Defined.

(* ===================================================================== *)
(** ** The coercion of the extracted value *)
(* ===================================================================== *)

Lemma or_zero_not_NaN (x : number) : or_zero x <> NaN.
Proof.
  unfold or_zero, NaN. destruct x; simpl; discriminate.
Qed.

Lemma or_zero_NaN : or_zero NaN = PosZero.
Proof. reflexivity. Qed.

(** The conversion of such a value to a string completes normally. *)
Lemma ToString_stringifies (host : Host) :
  forall v, stringifies v = true -> exists s, ToString host v = Normal s.
Proof.
  induction v as [ | | b | n | s | elems IH | fields _ | id]
    using JSValue_nested_ind; simpl; intros H;
    try (eexists; reflexivity); try discriminate.
  - induction IH as [| e rest He _ IHrest].
    + eexists; reflexivity.
    + simpl in H. apply andb_true_iff in H as [Hhead Hrest].
      destruct (IHrest Hrest) as [sr Hsr].
      assert (Helem : exists se,
                 match e with
                 | JUndefined | JNull => Normal ""
                 | _ => ToString host e
                 end = Normal se).
      { destruct e; try (eexists; reflexivity); apply He; exact Hhead. }
      destruct Helem as [se Hse]. rewrite Hse. simpl.
      destruct rest as [| e' rest']; [eexists; reflexivity |].
      rewrite Hsr. simpl. eexists; reflexivity.
  - destruct (lookup_field "toString" fields); [discriminate |].
    eexists; reflexivity.
Qed.

(** C5 as stated fails: the coercion of a mapping with an entry named
    [toString] throws. *)
Lemma C5_counterexample :
  exists message,
    dataPointValue plain_host (JObject [("toString", JString "x")])
    = Throw message.
Proof.
  eexists. reflexivity.
Qed.

(** C5, amended.  For every extracted leaf: a number is used as it is; any
    other leaf is converted to a string and parsed as a floating-point
    number; if parsing fails, or the leaf is [undefined], the value is 0.
    The coercion throws exactly when the leaf is not a number and its
    conversion to a string throws: it does for a mapping with an entry
    named [toString], and does not for a leaf free of built-in objects and
    of such mappings.  Whenever it does not throw it returns a number. *)
Theorem C5_numeric_coercion :
  forall (host : Host) (leaf : JSValue),
    (forall n, leaf = JNumber n -> dataPointValue host leaf = Normal n)
    /\ (forall s,
          typeof_is_number leaf = false ->
          ToString host leaf = Normal s ->
          dataPointValue host leaf = Normal (or_zero (parseFloat_string s))
          /\ (parseFloat_string s = NaN ->
              dataPointValue host leaf = Normal PosZero))
    /\ (leaf = JUndefined -> dataPointValue host leaf = Normal PosZero)
    /\ (forall message,
          dataPointValue host leaf = Throw message
          <-> typeof_is_number leaf = false
              /\ ToString host leaf = Throw message)
    /\ (forall fields entry,
          leaf = JObject fields ->
          lookup_field "toString" fields = Some entry ->
          exists message, dataPointValue host leaf = Throw message)
    /\ (stringifies leaf = true ->
        exists x, dataPointValue host leaf = Normal x)
    /\ ((forall message, dataPointValue host leaf <> Throw message) ->
        exists x, dataPointValue host leaf = Normal x).
Proof.
  intros host leaf.
  assert (Hother : typeof_is_number leaf = false ->
                   dataPointValue host leaf
                   = (x <- parseFloat host leaf ;; Normal (or_zero x))).
  { destruct leaf; simpl; intros H; try reflexivity; discriminate. }
  split; [| split; [| split; [| split; [| split; [| split]]]]].
  - intros n ->. reflexivity.
  - intros s Hty Hstr. rewrite (Hother Hty). unfold parseFloat.
    rewrite Hstr. simpl. split; [reflexivity |].
    intros ->. reflexivity.
  - intros ->. reflexivity.
  - intros message. split.
    + intros Hthrow. destruct (typeof_is_number leaf) eqn:Hty.
      * destruct leaf; simpl in *; discriminate.
      * split; [reflexivity |]. rewrite (Hother eq_refl) in Hthrow.
        unfold parseFloat in Hthrow.
        destruct (ToString host leaf); simpl in Hthrow;
          [discriminate | congruence].
    + intros [Hty Hstr]. rewrite (Hother Hty). unfold parseFloat.
      now rewrite Hstr.
  - intros fields entry -> Hentry. unfold dataPointValue, parseFloat.
    simpl. rewrite Hentry. simpl. eexists; reflexivity.
  - intros Hplain. destruct (typeof_is_number leaf) eqn:Hty.
    + destruct leaf; simpl in *; try discriminate. eexists; reflexivity.
    + destruct (ToString_stringifies host leaf Hplain) as [s Hs].
      rewrite (Hother eq_refl). unfold parseFloat. rewrite Hs. simpl.
      eexists; reflexivity.
  - intros Hnever. destruct (dataPointValue host leaf) as [x | message].
    + now exists x.
    + now elim (Hnever message).
Qed.

Lemma C5_witness :
  dataPointValue plain_host (JString "67890.12")
  = Normal (of_decimal false 6789012 (-2))
  /\ dataPointValue plain_host (JString "n/a") = Normal PosZero.
Proof.
  split.
  - destruct (C5_numeric_coercion plain_host (JString "67890.12"))
      as (_ & Hparse & _).
    destruct (Hparse "67890.12") as (-> & _); reflexivity.
  - destruct (C5_numeric_coercion plain_host (JString "n/a"))
      as (_ & Hparse & _).
    destruct (Hparse "n/a") as (_ & ->); reflexivity.
Defined.

(** A number leaf is passed through whatever it is, [NaN] included; the
    path [id.constructor.NaN] reaches one where a host has [Number.NaN]. *)
Remark dataPointValue_passes_NaN (host : Host) :
  dataPointValue host (JNumber NaN) = Normal NaN.
Proof. reflexivity. Qed.

(* ===================================================================== *)
(** ** Statistics: the order of numbers, [Math.min] and [Math.max] *)
(* ===================================================================== *)

Lemma num_ltb_trans (x y z : number) :
  num_ltb x y = true -> num_ltb y z = true -> num_ltb x z = true.
Proof.
  unfold num_ltb, SFltb, SFcompare.
  change (Pos.compare_cont Eq) with Pos.compare.
  number_cases x; number_cases y; number_cases z; simpl;
    try reflexivity; try discriminate; intros; compare_cases.
Qed.

(** Among numbers other than [NaN], "not below" is transitive. *)
Lemma num_ltb_negative_trans (x y z : number) :
  is_nan y = false ->
  num_ltb x y = false -> num_ltb y z = false -> num_ltb x z = false.
Proof.
  unfold num_ltb, SFltb, SFcompare.
  change (Pos.compare_cont Eq) with Pos.compare.
  number_cases x; number_cases y; number_cases z; simpl;
    try reflexivity; try discriminate; intros; compare_cases.
Qed.

Lemma num_ltb_irrefl (x : number) : num_ltb x x = false.
Proof.
  unfold num_ltb, SFltb, SFcompare.
  change (Pos.compare_cont Eq) with Pos.compare.
  number_cases x; simpl; try reflexivity;
    now rewrite Z.compare_refl, Pos.compare_refl.
Qed.

Lemma num_ltb_asym (x y : number) :
  num_ltb x y = true -> num_ltb y x = false.
Proof.
  intros H. destruct (num_ltb y x) eqn:E; [| reflexivity].
  pose proof (num_ltb_trans _ _ _ H E) as F.
  now rewrite num_ltb_irrefl in F.
Qed.

(** [Math.min] from a running minimum: the result is the running minimum
    or an argument, it is not above the running minimum, and no argument
    is below it. *)
Lemma min_from_spec (args : list number) :
  forall lowest,
    no_NaN args ->
    is_nan lowest = false ->
    (min_from lowest args = lowest \/ In (min_from lowest args) args)
    /\ is_nan (min_from lowest args) = false
    /\ num_ltb lowest (min_from lowest args) = false
    /\ (forall x, In x args -> num_ltb x (min_from lowest args) = false).
Proof.
  induction args as [| x rest IH]; intros lowest Hnan Hlow; simpl.
  - repeat split; auto using num_ltb_irrefl. intros x [].
  - assert (Hx : is_nan x = false) by (apply Hnan; now left).
    rewrite Hx.
    set (lowest' := match x, lowest with
                    | S754_zero true, S754_zero false => NegZero
                    | _, _ => lowest
                    end).
    assert (Hswap : (lowest' = lowest \/ lowest' = x)
                    /\ is_nan lowest' = false
                    /\ num_ltb lowest lowest' = false
                    /\ num_ltb x lowest' = num_ltb x lowest).
    { subst lowest'. number_cases x; number_cases lowest;
        repeat split; auto using num_ltb_irrefl. }
    destruct Hswap as (Hwhich & Hnan' & Hle' & Hsame).
    set (next := if num_ltb x lowest' then x else lowest').
    assert (Hnext : (next = lowest \/ next = x)
                    /\ is_nan next = false
                    /\ num_ltb lowest next = false
                    /\ num_ltb x next = false).
    { subst next. destruct (num_ltb x lowest') eqn:Hlt.
      - repeat split; auto using num_ltb_irrefl.
        rewrite Hsame in Hlt. now apply num_ltb_asym.
      - repeat split; auto. }
    destruct Hnext as (Hnwhich & Hnnan & Hnle & Hxle).
    destruct (IH next (fun y Hy => Hnan y (or_intror Hy)) Hnnan)
      as (Hin & Hrnan & Hrle & Hall).
    repeat split.
    + destruct Hin as [-> | Hin]; [| now right; right].
      destruct Hnwhich as [-> | ->]; [now left | now right; left].
    + exact Hrnan.
    + now apply (num_ltb_negative_trans lowest next).
    + intros y [<- | Hy]; [| now apply Hall].
      now apply (num_ltb_negative_trans x next).
Qed.

(** [Math.max], symmetrically. *)
Lemma max_from_spec (args : list number) :
  forall highest,
    no_NaN args ->
    is_nan highest = false ->
    (max_from highest args = highest \/ In (max_from highest args) args)
    /\ is_nan (max_from highest args) = false
    /\ num_ltb (max_from highest args) highest = false
    /\ (forall x, In x args -> num_ltb (max_from highest args) x = false).
Proof.
  induction args as [| x rest IH]; intros highest Hnan Hhigh; simpl.
  - repeat split; auto using num_ltb_irrefl. intros x [].
  - assert (Hx : is_nan x = false) by (apply Hnan; now left).
    rewrite Hx.
    set (highest' := match x, highest with
                     | S754_zero false, S754_zero true => PosZero
                     | _, _ => highest
                     end).
    assert (Hswap : (highest' = highest \/ highest' = x)
                    /\ is_nan highest' = false
                    /\ num_ltb highest' highest = false
                    /\ num_ltb highest' x = num_ltb highest x).
    { subst highest'. number_cases x; number_cases highest;
        repeat split; auto using num_ltb_irrefl. }
    destruct Hswap as (Hwhich & Hnan' & Hle' & Hsame).
    set (next := if num_ltb highest' x then x else highest').
    assert (Hnext : (next = highest \/ next = x)
                    /\ is_nan next = false
                    /\ num_ltb next highest = false
                    /\ num_ltb next x = false).
    { subst next. destruct (num_ltb highest' x) eqn:Hlt.
      - repeat split; auto using num_ltb_irrefl.
        rewrite Hsame in Hlt. now apply num_ltb_asym.
      - repeat split; auto. }
    destruct Hnext as (Hnwhich & Hnnan & Hnle & Hxle).
    destruct (IH next (fun y Hy => Hnan y (or_intror Hy)) Hnnan)
      as (Hin & Hrnan & Hrle & Hall).
    repeat split.
    + destruct Hin as [-> | Hin]; [| now right; right].
      destruct Hnwhich as [-> | ->]; [now left | now right; left].
    + exact Hrnan.
    + now apply (num_ltb_negative_trans _ next).
    + intros y [<- | Hy]; [| now apply Hall].
      now apply (num_ltb_negative_trans _ next).
Qed.

(** Nothing but [Infinity] is not below [Infinity]; nothing but
    [-Infinity] is not above [-Infinity]. *)
Lemma not_below_Infinity (x : number) :
  is_nan x = false -> num_ltb x Infinity = false -> x = Infinity.
Proof.
  number_cases x; simpl; intros; try reflexivity; discriminate.
Qed.

Lemma not_above_NegInfinity (x : number) :
  is_nan x = false -> num_ltb NegInfinity x = false -> x = NegInfinity.
Proof.
  number_cases x; simpl; intros; try reflexivity; discriminate.
Qed.

Lemma Math_min_spec (args : list number) :
  args <> [] -> no_NaN args ->
  In (Math_min args) args
  /\ (forall x, In x args -> num_ltb x (Math_min args) = false).
Proof.
  intros Hne Hnan.
  destruct (min_from_spec args Infinity Hnan eq_refl)
    as (Hin & _ & _ & Hall).
  fold (Math_min args) in *. split; [| exact Hall].
  destruct Hin as [Heq | Hin]; [| exact Hin].
  destruct args as [| x rest]; [contradiction |].
  assert (Hx : x = Infinity).
  { apply not_below_Infinity; [apply Hnan; now left |].
    rewrite <- Heq. apply Hall. now left. }
  rewrite Heq, <- Hx. now left.
Qed.

Lemma Math_max_spec (args : list number) :
  args <> [] -> no_NaN args ->
  In (Math_max args) args
  /\ (forall x, In x args -> num_ltb (Math_max args) x = false).
Proof.
  intros Hne Hnan.
  destruct (max_from_spec args NegInfinity Hnan eq_refl)
    as (Hin & _ & _ & Hall).
  fold (Math_max args) in *. split; [| exact Hall].
  destruct Hin as [Heq | Hin]; [| exact Hin].
  destruct args as [| x rest]; [contradiction |].
  assert (Hx : x = NegInfinity).
  { apply not_above_NegInfinity; [apply Hnan; now left |].
    rewrite <- Heq. apply Hall. now left. }
  rewrite Heq, <- Hx. now left.
Qed.

Lemma fold_left_sum_map (data : list DataPoint) (acc : number) :
  fold_left (fun sum d => num_add sum (value d)) data acc
  = fold_left num_add (map value data) acc.
Proof.
  revert acc. induction data as [| d data IH]; intros acc; simpl.
  - reflexivity.
  - apply IH.
Qed.

Lemma nth_error_last_snoc {A : Type} (front : list A) (x : A) :
  nth_error (front ++ [x]) (List.length (front ++ [x]) - 1) = Some x.
Proof.
  rewrite length_app. simpl.
  replace (List.length front + 1 - 1)%nat with (List.length front) by lia.
  rewrite nth_error_app2 by lia. now rewrite Nat.sub_diag.
Qed.

(** C7.  [stats] is [null] exactly when the buffer is empty.  On a
    non-empty buffer it holds the value of the last sample, the quotient of
    the sum of all retained values by their count, and, the values being
    free of [NaN], a minimum and a maximum that are retained values with no
    retained value below the one or above the other.  On the values 2, 4, 6
    it is [{latest: 6, min: 2, max: 6, avg: 4}]. *)
Theorem C7_stats_over_retained_samples :
  forall data : list DataPoint,
    (stats data = None <-> data = [])
    /\ (data <> [] ->
        exists st front newest,
          stats data = Some st
          /\ data = front ++ [newest]
          /\ latest st = Some (value newest)
          /\ avg st
             = num_div (fold_left num_add (map value data) PosZero)
                 (of_Z (Z.of_nat (List.length data)))
          /\ (no_NaN (map value data) ->
              In (min st) (map value data)
              /\ (forall x, In x (map value data) -> num_ltb x (min st) = false)
              /\ In (max st) (map value data)
              /\ (forall x, In x (map value data) -> num_ltb (max st) x = false)))
    /\ stats [sample_of (of_Z 2); sample_of (of_Z 4); sample_of (of_Z 6)]
       = Some {| latest := Some (of_Z 6); min := of_Z 2;
                 max := of_Z 6; avg := of_Z 4 |}.
Proof.
  intros data. split; [| split].
  - unfold stats. destruct data as [| d data]; simpl.
    + split; reflexivity.
    + split; discriminate.
  - intros Hne. destruct (exists_last Hne) as (front & newest & Hdata).
    unfold stats.
    assert (Hpos : (0 <? List.length data)%nat = true).
    { apply Nat.ltb_lt. destruct data; [contradiction | simpl; lia]. }
    rewrite Hpos. eexists; exists front, newest.
    split; [reflexivity | split; [exact Hdata | split; [| split]]]; simpl.
    + rewrite Hdata, nth_error_last_snoc. reflexivity.
    + now rewrite fold_left_sum_map.
    + intros Hnan.
      assert (Hvalues : map value data <> []) by (now destruct data).
      destruct (Math_min_spec _ Hvalues Hnan) as [Hmin Hlow].
      destruct (Math_max_spec _ Hvalues Hnan) as [Hmax Hhigh].
      repeat split; assumption.
  - vm_compute. reflexivity.
Qed.

Lemma C7_witness :
  exists st,
    stats [sample_of (of_Z 2); sample_of (of_Z 4); sample_of (of_Z 6)] = Some st
    /\ latest st = Some (of_Z 6)
    /\ In (min st) [of_Z 2; of_Z 4; of_Z 6]
    /\ In (max st) [of_Z 2; of_Z 4; of_Z 6].
Proof.
  destruct (C7_stats_over_retained_samples
              [sample_of (of_Z 2); sample_of (of_Z 4); sample_of (of_Z 6)])
    as (_ & Hsome & _).
  destruct Hsome as (st & front & newest & Hst & Hdata & Hlatest & _ & Hbounds);
    [discriminate |].
  assert (Hnewest : newest = sample_of (of_Z 6)).
  { apply (f_equal (@rev DataPoint)) in Hdata. rewrite rev_app_distr in Hdata.
    simpl in Hdata. now injection Hdata as <-. }
  destruct Hbounds as (Hmin & _ & Hmax & _).
  { intros x Hx. simpl in Hx.
    destruct Hx as [<- | [<- | [<- | []]]]; reflexivity. }
  exists st. rewrite Hlatest, Hnewest. repeat split; assumption.
Defined.

(* ===================================================================== *)
(** ** The polling effect: one timer while live *)
(* ===================================================================== *)

Lemma handle_keeps_timers (host : Host) (ev : Event) (r : Runtime) :
  timers (handle host ev r) = timers r
  /\ intervalId (handle host ev r) = intervalId r
  /\ next_id (handle host ev r) = next_id r.
Proof.
  destruct ev; simpl; auto.
  - destruct (isLive (state r)); auto.
  - destruct (nth_error apiExamples index); auto.
  - destruct (find _ (timers r)); auto.
  - destruct (nth_error (pending r) index); auto.
Qed.

Lemma timers_in_step_mounted : timers_in_step mounted.
Proof.
  unfold timers_in_step, mounted. simpl. repeat split. intros t [].
Qed.

Lemma timers_in_step_commit (before : State) (r : Runtime) :
  (if isLive before then
     exists id,
       intervalId r = Some id
       /\ timers r = [ {| timer_id := id;
                          period := refreshInterval before;
                          callback := config_of before |} ]
   else intervalId r = None /\ timers r = []) ->
  (forall t, In t (timers r) -> (timer_id t < next_id r)%positive) ->
  timers_in_step (commit before r).
Proof.
  intros Hshape Hfresh. unfold commit.
  destruct (deps_eq_dec (deps before) (deps (state r))) as [Hsame | Hdiff].
  - pose proof (f_equal (fun d => fst (fst d)) Hsame) as Hlive.
    pose proof (f_equal (fun d => snd (fst d)) Hsame) as Hinterval.
    pose proof (f_equal snd Hsame) as Hcfg. simpl in Hlive, Hinterval, Hcfg.
    unfold timers_in_step. rewrite <- Hlive, <- Hinterval, <- Hcfg.
    now split.
  - assert (Hclean : timers (cleanup r) = []
                     /\ state (cleanup r) = state r
                     /\ next_id (cleanup r) = next_id r).
    { unfold cleanup, clearInterval. destruct (isLive before).
      - destruct Hshape as (id & -> & ->). simpl.
        now rewrite Pos.eqb_refl.
      - destruct Hshape as (-> & ->). auto. }
    destruct Hclean as (Htimers & Hstate & Hnext).
    unfold timers_in_step, effect. rewrite Hstate.
    destruct (isLive (state r)) eqn:Hlive; simpl;
      rewrite ?Hstate, ?Hlive, ?Htimers, ?Hnext.
    + split.
      * eexists. split; reflexivity.
      * intros t [<- | []]. simpl. lia.
    + split; [now split | intros t []].
Qed.

Lemma timers_in_step_step (host : Host) (r : Runtime) (ev : Event) :
  timers_in_step r -> timers_in_step (step host r ev).
Proof.
  intros [Hshape Hfresh]. unfold step.
  destruct (handle_keeps_timers host ev r) as (Ht & Hi & Hn).
  apply timers_in_step_commit.
  - rewrite Ht, Hi. exact Hshape.
  - rewrite Ht, Hn. exact Hfresh.
Qed.

Lemma timers_in_step_run (host : Host) (evs : list Event) :
  forall r, timers_in_step r -> timers_in_step (run host r evs).
Proof.
  induction evs as [| ev evs IH]; intros r Hr; simpl.
  - exact Hr.
  - apply IH. now apply timers_in_step_step.
Qed.

Lemma timers_in_step_live (r : Runtime) :
  timers_in_step r ->
  isLive (state r) = true ->
  exists t,
    timers r = [t]
    /\ period t = refreshInterval (state r)
    /\ callback t = config_of (state r)
    /\ intervalId r = Some (timer_id t).
Proof.
  intros [Hshape _] Hlive. rewrite Hlive in Hshape.
  destruct Hshape as (id & Hid & Ht). eexists. rewrite Ht, Hid.
  repeat split.
Qed.

Lemma timers_in_step_paused (r : Runtime) :
  timers_in_step r -> isLive (state r) = false -> timers r = [].
Proof.
  intros [Hshape _] Hlive. rewrite Hlive in Hshape. tauto.
Qed.

Lemma timers_in_step_at_most_one (r : Runtime) :
  timers_in_step r -> (List.length (timers r) <= 1)%nat.
Proof.
  intros Hinv. destruct (isLive (state r)) eqn:Hlive.
  - destruct (timers_in_step_live r Hinv Hlive) as (t & -> & _). simpl. lia.
  - rewrite (timers_in_step_paused r Hinv Hlive). simpl. lia.
Qed.

(** When a dependency changed, the old timer is cleared and the only timer
    armed afterwards, if any, carries a fresh handle. *)
Lemma step_rearms (host : Host) (r : Runtime) (ev : Event) :
  timers_in_step r ->
  deps (state r) <> deps (state (handle host ev r)) ->
  timers (step host r ev)
  = if isLive (state (handle host ev r)) then
      [ {| timer_id := next_id r;
           period := refreshInterval (state (handle host ev r));
           callback := config_of (state (handle host ev r)) |} ]
    else [].
Proof.
  intros [Hshape _] Hdiff. unfold step, commit.
  destruct (deps_eq_dec _ _) as [Hsame | _]; [contradiction |].
  destruct (handle_keeps_timers host ev r) as (Ht & Hi & Hn).
  set (h := handle host ev r) in *.
  assert (Hclean : timers (cleanup h) = []
                   /\ state (cleanup h) = state h
                   /\ next_id (cleanup h) = next_id r).
  { unfold cleanup, clearInterval. rewrite Hi.
    destruct (isLive (state r)).
    - destruct Hshape as (id & -> & Htimers). simpl.
      rewrite Ht, Htimers. simpl. now rewrite Pos.eqb_refl.
    - destruct Hshape as (-> & Htimers). rewrite Ht, Htimers. auto. }
  destruct Hclean as (Htimers & Hstate & Hnext).
  unfold effect. rewrite Hstate.
  destruct (isLive (state h)); simpl; now rewrite ?Hstate, ?Htimers, ?Hnext.
Qed.

(** C8.  In every state the component reaches from its first render, by
    whatever sequence of events: while live exactly one repeating timer is
    armed, with the configured period; while paused none is; never more
    than one.  Starting twice in a row leaves exactly one timer; choosing
    another interval while live leaves exactly one timer, at the new
    period, and it is not the old one, which was cleared. *)
Theorem C8_one_timer_while_live :
  forall (host : Host) (evs : list Event),
    let r := run host mounted evs in
    (isLive (state r) = true ->
     exists t, timers r = [t] /\ period t = refreshInterval (state r))
    /\ (isLive (state r) = false -> timers r = [])
    /\ (List.length (timers r) <= 1)%nat
    /\ (exists t,
          timers (start host (start host r)) = [t]
          /\ isLive (state (start host (start host r))) = true)
    /\ timers (stop host r) = []
    /\ (forall ms,
          isLive (state r) = true ->
          exists t,
            timers (step host r (SelectInterval ms)) = [t]
            /\ period t = ms
            /\ (ms <> refreshInterval (state r) ->
                forall old, In old (timers r) -> timer_id t <> timer_id old)).
Proof.
  intros host evs r.
  assert (Hinv : timers_in_step r)
    by (apply timers_in_step_run, timers_in_step_mounted).
  split; [| split; [| split; [| split; [| split]]]].
  - intros Hlive.
    destruct (timers_in_step_live r Hinv Hlive) as (t & Ht & Hp & _).
    now exists t.
  - now apply timers_in_step_paused.
  - now apply timers_in_step_at_most_one.
  - assert (Hstart : timers_in_step (start host r)
                     /\ isLive (state (start host r)) = true).
    { unfold start. destruct (isLive (state r)) eqn:Hlive.
      - now split.
      - split; [now apply timers_in_step_step |].
        rewrite state_step. simpl. now rewrite Hlive. }
    destruct Hstart as [Hinv1 Hlive1].
    assert (Htwice : start host (start host r) = start host r).
    { unfold start at 1. now rewrite Hlive1. }
    rewrite Htwice.
    destruct (timers_in_step_live _ Hinv1 Hlive1) as (t & Ht & _).
    now exists t.
  - unfold stop. destruct (isLive (state r)) eqn:Hlive.
    + apply timers_in_step_paused; [now apply timers_in_step_step |].
      rewrite state_step. simpl. now rewrite Hlive.
    + now apply timers_in_step_paused.
  - intros ms Hlive.
    assert (Hinv' : timers_in_step (step host r (SelectInterval ms)))
      by (now apply timers_in_step_step).
    assert (Hlive' : isLive (state (step host r (SelectInterval ms))) = true)
      by (rewrite state_step; exact Hlive).
    destruct (timers_in_step_live _ Hinv' Hlive') as (t & Ht & Hp & _).
    exists t. split; [exact Ht | split].
    + rewrite Hp, state_step. reflexivity.
    + intros Hms old Hold.
      assert (Hdiff : deps (state r)
                      <> deps (state (handle host (SelectInterval ms) r))).
      { unfold deps. simpl. intros Heq.
        apply (f_equal (fun d => snd (fst d))) in Heq. simpl in Heq.
        now apply Hms. }
      rewrite (step_rearms host r _ Hinv Hdiff) in Ht. simpl in Ht.
      rewrite Hlive in Ht. injection Ht as <-. simpl.
      destruct Hinv as [_ Hfresh]. specialize (Hfresh old Hold). lia.
Qed.

Lemma C8_witness :
  exists t,
    timers (run plain_host mounted [ClickToggleLive; SelectInterval (of_Z 1000)])
    = [t]
    /\ period t = of_Z 1000.
Proof.
  destruct (C8_one_timer_while_live plain_host
              [ClickToggleLive; SelectInterval (of_Z 1000)])
    as (Hlive & _).
  apply Hlive. reflexivity.
Defined.

(* ===================================================================== *)
(** ** Clearing and reconfiguring *)
(* ===================================================================== *)

(** C10.  [clearData] empties the buffer and also resets [error] to
    [null]; every other cell of the state keeps its value.  The same holds
    of the state after the click on "Limpiar datos". *)
Theorem C10_clear_resets_error :
  forall (host : Host) (r : Runtime),
    error (clearData (state r)) = None
    /\ data (clearData (state r)) = []
    /\ isLive (clearData (state r)) = isLive (state r)
    /\ apiUrl (clearData (state r)) = apiUrl (state r)
    /\ jsonPath (clearData (state r)) = jsonPath (state r)
    /\ refreshInterval (clearData (state r)) = refreshInterval (state r)
    /\ maxDataPoints (clearData (state r)) = maxDataPoints (state r)
    /\ lastUpdate (clearData (state r)) = lastUpdate (state r)
    /\ isConfigOpen (clearData (state r)) = isConfigOpen (state r)
    /\ state (step host r ClickClear) = clearData (state r).
Proof.
  intros host r. repeat split. now rewrite state_step.
Qed.

(** C3 as stated fails: after one successful poll, editing the URL field,
    or the path field, changes the configuration and leaves the sample in
    the buffer. *)
Lemma C3_counterexample :
  let r := run plain_host mounted poll_once in
  let r1 := step plain_host r (EditApiUrl "https://example.org/data.json") in
  let r2 := step plain_host r (EditJsonPath "bpi.EUR.rate_float") in
  List.length (data (state r)) = 1%nat
  /\ apiUrl (state r1) <> apiUrl (state r)
  /\ List.length (data (state r1)) = 1%nat
  /\ jsonPath (state r2) <> jsonPath (state r)
  /\ List.length (data (state r2)) = 1%nat.
Proof.
  vm_compute. repeat split; discriminate.
Qed.

(** C3, amended.  Picking a bundled example sets the URL and the path to
    those of the example and clears: the buffer is emptied and [error]
    reset.  Editing the URL field or the path field changes that field
    only: the buffer and [error] are as before. *)
Theorem C3_only_an_example_clears :
  forall (host : Host) (r : Runtime),
    (forall index example,
        nth_error apiExamples index = Some example ->
        apiUrl (state (step host r (ClickExample index))) = url example
        /\ jsonPath (state (step host r (ClickExample index))) = path example
        /\ data (state (step host r (ClickExample index))) = []
        /\ error (state (step host r (ClickExample index))) = None)
    /\ (forall u,
          apiUrl (state (step host r (EditApiUrl u))) = u
          /\ jsonPath (state (step host r (EditApiUrl u))) = jsonPath (state r)
          /\ data (state (step host r (EditApiUrl u))) = data (state r)
          /\ error (state (step host r (EditApiUrl u))) = error (state r))
    /\ (forall p,
          jsonPath (state (step host r (EditJsonPath p))) = p
          /\ apiUrl (state (step host r (EditJsonPath p))) = apiUrl (state r)
          /\ data (state (step host r (EditJsonPath p))) = data (state r)
          /\ error (state (step host r (EditJsonPath p))) = error (state r)).
Proof.
  intros host r. split; [| split].
  - intros index example Hnth. rewrite state_step. simpl. rewrite Hnth.
    repeat split.
  - intros u. rewrite state_step. repeat split.
  - intros p. rewrite state_step. repeat split.
Qed.

Lemma C3_witness :
  let r := step plain_host (run plain_host mounted poll_once) (ClickExample 1) in
  apiUrl (state r) = "https://randomuser.me/api/"
  /\ jsonPath (state r) = "results[0].login.uuid"
  /\ data (state r) = []
  /\ error (state r) = None.
Proof.
  destruct (C3_only_an_example_clears plain_host
              (run plain_host mounted poll_once)) as (Hexample & _).
  apply (Hexample 1%nat
           {| name := "Random User API";
              url := "https://randomuser.me/api/";
              path := "results[0].login.uuid";
              description := "Datos aleatorios de usuarios (extrae UUID)" |}).
  reflexivity.
Defined.

(** C2 as stated fails: with three samples in the buffer, setting the
    maximum to two leaves the three samples there. *)
Lemma C2_counterexample :
  let r := run plain_host mounted (poll_once ++ poll_once ++ poll_once) in
  let r' := step plain_host r (EditMaxDataPoints (of_Z 2)) in
  List.length (data (state r)) = 3%nat
  /\ maxDataPoints (state r') = of_Z 2
  /\ List.length (data (state r')) = 3%nat.
Proof.
  vm_compute. repeat split.
Qed.

(** C2, amended.  Setting the maximum number of retained points changes
    that number only: the buffer keeps all its samples.  Samples are
    evicted from the front by the next poll that captured the new maximum
    [n >= 1] and succeeds: after it the buffer holds the [n] most recent
    samples, the new one included. *)
Theorem C2_capacity_applies_at_next_append :
  forall (host : Host) (r : Runtime) (n : number),
    maxDataPoints (state (step host r (EditMaxDataPoints n))) = n
    /\ data (state (step host r (EditMaxDataPoints n))) = data (state r)
    /\ (forall N fetched clock s',
          ToIntegerOrInfinity n = Int N ->
          1 <= N ->
          fetchData host
            (config_of (state (step host r (EditMaxDataPoints n))))
            fetched clock (state (step host r (EditMaxDataPoints n)))
          = Normal s' ->
          error s' = None ->
          exists sample,
            data s' = lastN (Z.to_nat N) (data (state r) ++ [sample])
            /\ List.length (data s')
               = Nat.min (Z.to_nat N) (List.length (data (state r)) + 1)).
Proof.
  intros host r n. rewrite state_step. simpl.
  split; [reflexivity | split; [reflexivity |]].
  intros N fetched clock s' Hcap HN Hrun Herr.
  set (s := setMaxDataPoints n (state r)) in *.
  destruct (fetchData_outcome host (config_of s) fetched clock s)
    as [(updates & Htry & Hok) | (message & _ & Hfail)].
  - destruct (fetchData_try_updates _ _ _ _ _ Htry)
      as (response & body & extracted & v & _ & _ & _ & _ & _ & Hupd).
    rewrite Hok in Hrun. injection Hrun as <-. rewrite Hupd. simpl.
    eexists. rewrite (appendDataPoint_lastN _ N) by assumption.
    split; [reflexivity |].
    rewrite length_lastN, length_app. reflexivity.
  - rewrite Hfail in Hrun. injection Hrun as <-. discriminate.
Qed.

Lemma C2_witness :
  let r := run plain_host mounted (poll_once ++ poll_once ++ poll_once) in
  let r' := step plain_host r (EditMaxDataPoints (of_Z 2)) in
  exists s',
    fetchData plain_host (config_of (state r')) (Normal coindesk_response)
      ten_o_clock (state r') = Normal s'
    /\ List.length (data s') = 2%nat.
Proof.
  intros r r'.
  pose (s' := match fetchData plain_host (config_of (state r'))
                      (Normal coindesk_response) ten_o_clock (state r') with
              | Normal s => s
              | Throw _ => state r'
              end).
  assert (Hrun : fetchData plain_host (config_of (state r'))
                   (Normal coindesk_response) ten_o_clock (state r')
                 = Normal s') by (vm_compute; reflexivity).
  exists s'. split; [exact Hrun |].
  destruct (C2_capacity_applies_at_next_append plain_host r (of_Z 2))
    as (_ & _ & Htrim).
  destruct (Htrim 2 (Normal coindesk_response) ten_o_clock s')
    as (sample & _ & ->).
  - vm_compute. reflexivity.
  - lia.
  - exact Hrun.
  - vm_compute. reflexivity.
  - vm_compute. reflexivity.
Defined.

(* ===================================================================== *)
(** ** Dot-paths as sequences of keys *)
(* ===================================================================== *)

Lemma split_nonempty (sep : ascii) (s : string) : split sep s <> [].
Proof.
  destruct s as [| c rest]; simpl; [discriminate |].
  destruct (Ascii.eqb c sep); [discriminate |].
  destruct (split sep rest); discriminate.
Qed.

Lemma split_app_sep (p q : string) :
  split "." (p ++ String "." q) = split "." p ++ split "." q.
Proof.
  induction p as [| c p IH]; simpl.
  - reflexivity.
  - destruct (Ascii.eqb c "."); [now rewrite IH |].
    rewrite IH. pose proof (split_nonempty "." p) as Hne.
    destruct (split "." p) as [| seg segs]; [contradiction | reflexivity].
Qed.

Lemma split_dot_free (s : string) :
  dot_free s = true -> split "." s = [s].
Proof.
  induction s as [| c s IH]; simpl; intros H.
  - reflexivity.
  - apply andb_true_iff in H as [Hc Hs]. apply negb_true_iff in Hc.
    rewrite Hc, (IH Hs). reflexivity.
Qed.

Lemma split_concat (keys : list string) :
  keys <> [] ->
  Forall (fun key => dot_free key = true) keys ->
  split "." (String.concat "." keys) = keys.
Proof.
  intros Hne Hfree. induction Hfree as [| key rest Hkey Hrest IH].
  - contradiction.
  - destruct rest as [| key' rest'].
    + simpl. now apply split_dot_free.
    + change (String.concat "." (key :: key' :: rest'))
        with (key ++ String "." (String.concat "." (key' :: rest')))%string.
      rewrite split_app_sep, split_dot_free by assumption.
      rewrite IH by discriminate. reflexivity.
Qed.

Lemma reduce_descend (host : Host) (keys : list string) :
  forall obj leaf,
    descend keys obj = Some leaf ->
    reduce (and_then_get host) keys obj = Normal leaf.
Proof.
  induction keys as [| key rest IH]; simpl; intros obj leaf H.
  - now injection H as ->.
  - destruct obj; try discriminate.
    destruct (lookup_field key fields) as [w |] eqn:Hw; [| discriminate].
    unfold and_then_get at 1. unfold Get. simpl. rewrite Hw. simpl.
    now apply IH.
Qed.

(** X1.  Extraction composes along a dot: for non-empty paths [p] and [q],
    extracting [p.q] from a value is extracting [q] from what [p]
    extracts, a thrown error of the first extraction being passed on. *)
Theorem X1_extraction_composes :
  forall (host : Host) (obj : JSValue) (p q : string),
    p <> "" -> q <> "" ->
    getValueFromPath host obj (p ++ String "." q)
    = (v <- getValueFromPath host obj p ;; getValueFromPath host v q).
Proof.
  intros host obj p q Hp Hq.
  rewrite (getValueFromPath_nonempty host obj (p ++ String "." q))
    by (destruct p; discriminate).
  rewrite (getValueFromPath_nonempty host obj p Hp).
  rewrite split_app_sep, reduce_app.
  destruct (reduce (and_then_get host) (split "." p) obj) as [v | m]; simpl.
  - now rewrite (getValueFromPath_nonempty host v q Hq).
  - reflexivity.
Qed.

Lemma X1_witness :
  getValueFromPath plain_host coindesk_body "bpi.USD.rate_float"
  = (v <- getValueFromPath plain_host coindesk_body "bpi.USD" ;;
     getValueFromPath plain_host v "rate_float").
Proof.
  apply (X1_extraction_composes plain_host coindesk_body "bpi.USD" "rate_float");
    discriminate.
Defined.

(** X2.  Where descending through nested mappings by their own entries
    reaches a leaf, the extraction with the keys joined by dots returns
    that leaf: for keys without a dot, not the single empty key. *)
Theorem X2_extraction_finds_nested_entry :
  forall (host : Host) (keys : list string) (obj leaf : JSValue),
    keys <> [] ->
    String.concat "." keys <> "" ->
    Forall (fun key => dot_free key = true) keys ->
    descend keys obj = Some leaf ->
    getValueFromPath host obj (String.concat "." keys) = Normal leaf.
Proof.
  intros host keys obj leaf Hne Hpath Hfree Hdesc.
  rewrite getValueFromPath_nonempty by assumption.
  rewrite split_concat by assumption.
  now apply reduce_descend.
Qed.

Lemma X2_witness :
  getValueFromPath plain_host coindesk_body "bpi.USD.rate_float"
  = Normal (JNumber (of_decimal false 6789012 (-2))).
Proof.
  apply (X2_extraction_finds_nested_entry plain_host
           ["bpi"; "USD"; "rate_float"] coindesk_body).
  - discriminate.
  - discriminate.
  - repeat constructor.
  - reflexivity.
Defined.

(** X3.  A path whose first segment names no property of the response
    body reports no error: the poll succeeds, clears [error] and records a
    sample with the value 0. *)
Theorem X3_missing_path_plots_zero :
  forall (host : Host) (cfg : Config) (response : Response) (clock : Clock)
         (s : State) (fields : list (string * JSValue))
         (seg : string) (rest : list string),
    cfg_jsonPath cfg <> "" ->
    split "." (cfg_jsonPath cfg) = seg :: rest ->
    ok response = true ->
    json response = Normal (JObject fields) ->
    lookup_field seg fields = None ->
    inherited host (JObject fields) seg = Normal JUndefined ->
    exists s',
      fetchData host cfg (Normal response) clock s = Normal s'
      /\ error s' = None
      /\ data s'
         = appendDataPoint (cfg_maxDataPoints cfg)
             {| timestamp := localeTimeString clock;
                value := PosZero;
                fullData := JObject fields |} (data s).
Proof.
  intros host cfg response clock s fields seg rest Hne Hsplit Hok Hjson
         Hmiss Hinh.
  assert (Hget : getValueFromPath host (JObject fields) (cfg_jsonPath cfg)
                 = Normal JUndefined).
  { rewrite getValueFromPath_nonempty by assumption. rewrite Hsplit. simpl.
    unfold and_then_get at 1. unfold Get. simpl. rewrite Hmiss, Hinh. simpl.
    now apply reduce_falsy. }
  eexists. split; [| split].
  - unfold fetchData, fetchData_try. simpl. rewrite Hok, Hjson. simpl.
    rewrite Hget. reflexivity.
  - reflexivity.
  - reflexivity.
Qed.

Lemma X3_witness :
  exists s',
    fetchData plain_host
      {| cfg_apiUrl := "https://randomuser.me/api/";
         cfg_jsonPath := "results[0].login.uuid";
         cfg_maxDataPoints := of_Z 20 |}
      (Normal {| ok := true; status := of_Z 200;
                 json := Normal (JObject
                   [("results",
                     JArray [JObject [("login",
                       JObject [("uuid", JString "7a0e")])]])]) |})
      ten_o_clock initialState = Normal s'
    /\ error s' = None
    /\ map value (data s') = [PosZero].
Proof.
  destruct (X3_missing_path_plots_zero plain_host
              {| cfg_apiUrl := "https://randomuser.me/api/";
                 cfg_jsonPath := "results[0].login.uuid";
                 cfg_maxDataPoints := of_Z 20 |}
              {| ok := true; status := of_Z 200;
                 json := Normal (JObject
                   [("results",
                     JArray [JObject [("login",
                       JObject [("uuid", JString "7a0e")])]])]) |}
              ten_o_clock initialState
              [("results",
                JArray [JObject [("login", JObject [("uuid", JString "7a0e")])]])]
              "results[0]" ["login"; "uuid"])
    as (s' & Hrun & Herr & Hdata); try reflexivity; try discriminate.
  exists s'. split; [exact Hrun | split; [exact Herr |]].
  rewrite Hdata. vm_compute. reflexivity.
Defined.

(* ===================================================================== *)
(** ** What is rendered: the table and the statistics *)
(* ===================================================================== *)

(** X4.  The table is rendered exactly when the buffer is not empty; its
    rows are the ten most recent samples, newest first, so there are at
    most ten and the first row is the sample of the last poll. *)
Theorem X4_table_shows_ten_newest_first :
  forall data : list DataPoint,
    (dataTable data = None <-> data = [])
    /\ (forall rows,
          dataTable data = Some rows ->
          rows = map (fun point => (timestamp point, toFixed 2 (value point)))
                   (firstn 10 (rev data))
          /\ List.length rows = Nat.min 10 (List.length data)
          /\ (forall front newest,
                data = front ++ [newest] ->
                hd_error rows
                = Some (timestamp newest, toFixed 2 (value newest)))).
Proof.
  intros data. split.
  - unfold dataTable. destruct data; simpl; split; try reflexivity; discriminate.
  - intros rows Hrows. unfold dataTable in Hrows.
    destruct (0 <? List.length data)%nat; [| discriminate].
    assert (Hten : ToIntegerOrInfinity (of_Z 10) = Int 10) by reflexivity.
    rewrite (slice_neg_lastN (of_Z 10) 10 data Hten) in Hrows by lia.
    assert (Hrev : rev (lastN (Z.to_nat 10) data) = firstn 10 (rev data)).
    { unfold lastN. now rewrite firstn_rev. }
    rewrite Hrev in Hrows.
    assert (Hr : rows
                 = map (fun point => (timestamp point, toFixed 2 (value point)))
                     (firstn 10 (rev data))) by congruence.
    clear Hrows. subst rows. split; [reflexivity | split].
    + rewrite length_map, length_firstn, length_rev. reflexivity.
    + intros front newest ->. rewrite rev_app_distr. reflexivity.
Qed.

Lemma X4_witness :
  dataTable [sample_of (of_Z 2); sample_of (of_Z 4); sample_of (of_Z 6)]
  = Some [("10:00:00", "6.00"); ("10:00:00", "4.00"); ("10:00:00", "2.00")].
Proof.
  destruct (X4_table_shows_ten_newest_first
              [sample_of (of_Z 2); sample_of (of_Z 4); sample_of (of_Z 6)])
    as [_ Hrows].
  destruct (dataTable [sample_of (of_Z 2); sample_of (of_Z 4); sample_of (of_Z 6)])
    as [rows |] eqn:Htable; [| vm_compute in Htable; discriminate].
  destruct (Hrows rows eq_refl) as (-> & _). vm_compute. reflexivity.
Defined.

(** X5.  On a buffer whose values are free of [NaN], the statistics are
    ordered: the maximum is not below the minimum, and the latest value is
    neither below the minimum nor above the maximum. *)
Theorem X5_stats_are_ordered :
  forall (data : list DataPoint) (st : Stats),
    stats data = Some st ->
    no_NaN (map value data) ->
    num_ltb (max st) (min st) = false
    /\ (forall v, latest st = Some v ->
                  num_ltb v (min st) = false /\ num_ltb (max st) v = false).
Proof.
  intros data st Hst Hnan. unfold stats in Hst.
  destruct (0 <? List.length data)%nat eqn:Hpos; [| discriminate].
  injection Hst as <-. simpl.
  assert (Hvalues : map value data <> [])
    by (destruct data; [discriminate | discriminate]).
  destruct (Math_min_spec _ Hvalues Hnan) as [Hmin Hlow].
  destruct (Math_max_spec _ Hvalues Hnan) as [Hmax Hhigh].
  split.
  - now apply Hhigh.
  - intros v Hv.
    destruct (nth_error data (List.length data - 1)) as [newest |] eqn:Hnth;
      [| discriminate].
    injection Hv as <-.
    assert (Hin : In (value newest) (map value data))
      by (apply in_map; eapply nth_error_In; eassumption).
    split; [now apply Hlow | now apply Hhigh].
Qed.

Lemma X5_witness :
  exists st,
    stats [sample_of (of_Z 4); sample_of (of_Z 2); sample_of (of_Z 6)] = Some st
    /\ num_ltb (max st) (min st) = false.
Proof.
  destruct (stats [sample_of (of_Z 4); sample_of (of_Z 2); sample_of (of_Z 6)])
    as [st |] eqn:Hst; [| vm_compute in Hst; discriminate].
  exists st. split; [reflexivity |].
  destruct (X5_stats_are_ordered _ st Hst) as [Hordered _]; [| exact Hordered].
  intros v Hv. simpl in Hv.
  destruct Hv as [<- | [<- | [<- | []]]]; reflexivity.
Defined.

(* ===================================================================== *)
(** ** The event loop: requests, ticks and what a poll leaves alone *)
(* ===================================================================== *)

Lemma commit_same (before : State) (h : Runtime) :
  deps before = deps (state h) -> commit before h = h.
Proof.
  intros Hsame. unfold commit.
  destruct (deps_eq_dec _ _); [reflexivity | contradiction].
Qed.

(** The requests after a render: one more, with the configuration of the
    render, when a dependency changed and the component is live. *)
Lemma pending_commit (before : State) (h : Runtime) :
  pending (commit before h)
  = if deps_eq_dec (deps before) (deps (state h)) then pending h
    else if isLive (state h) then pending h ++ [config_of (state h)]
         else pending h.
Proof.
  unfold commit. destruct (deps_eq_dec _ _); [reflexivity |].
  unfold effect, cleanup, clearInterval.
  destruct (intervalId h); simpl; now destruct (isLive (state h)).
Qed.

(** A poll changes neither the mode nor the configuration. *)
Lemma fetchData_keeps_deps (host : Host) (cfg : Config)
  (fetched : completion Response) (clock : Clock) (s s' : State) :
  fetchData host cfg fetched clock s = Normal s' ->
  deps s' = deps s /\ isConfigOpen s' = isConfigOpen s.
Proof.
  intros Hrun.
  destruct (fetchData_outcome host cfg fetched clock s)
    as [(updates & Htry & Hok) | (message & _ & Hfail)].
  - destruct (fetchData_try_updates _ _ _ _ _ Htry)
      as (response & body & extracted & v & _ & _ & _ & _ & _ & Hupd).
    rewrite Hok in Hrun. injection Hrun as <-. rewrite Hupd. now split.
  - rewrite Hfail in Hrun. injection Hrun as <-. now split.
Qed.

Lemma fetchData_normal (host : Host) (cfg : Config)
  (fetched : completion Response) (clock : Clock) (s : State) :
  exists s', fetchData host cfg fetched clock s = Normal s'.
Proof.
  destruct (fetchData_outcome host cfg fetched clock s)
    as [(u & _ & H) | (m & _ & H)]; eauto.
Qed.

(** X6.  Only a settled poll, "Limpiar datos" and the choice of an example
    touch the samples: after any other event (the mode toggle, a manual or
    timed request leaving, an edit of the configuration) the buffer, the
    error and the time of the last update are what they were. *)
Theorem X6_other_events_leave_samples :
  forall (host : Host) (r : Runtime) (ev : Event),
    touches_samples ev = false ->
    data (state (step host r ev)) = data (state r)
    /\ error (state (step host r ev)) = error (state r)
    /\ lastUpdate (state (step host r ev)) = lastUpdate (state r).
Proof.
  intros host r ev Hev. rewrite state_step.
  destruct ev; simpl in *; try discriminate; try (now repeat split).
  - destruct (isLive (state r)); now repeat split.
  - destruct (find _ (timers r)); now repeat split.
Qed.

Lemma X6_witness :
  let r := run plain_host mounted (poll_once ++ [ClickToggleLive]) in
  List.length (data (state (step plain_host r (TimerFires 1%positive)))) = 1%nat.
Proof.
  intros r.
  destruct (X6_other_events_leave_samples plain_host r (TimerFires 1%positive))
    as (-> & _); [reflexivity |].
  vm_compute. reflexivity.
Defined.

(** X7.  A poll settles with the configuration it captured when it was
    issued, and it only settles: it is removed from the pending requests,
    it leaves the mode, the interval and the configuration as they are, and
    so it neither clears nor arms a timer nor issues a request, whether it
    succeeds or fails. *)
Theorem X7_settled_poll_leaves_controller :
  forall (host : Host) (r : Runtime) (index : nat)
         (fetched : completion Response) (clock : Clock) (cfg : Config),
    nth_error (pending r) index = Some cfg ->
    fetchData host cfg fetched clock (state r)
    = Normal (state (step host r (FetchSettles index fetched clock)))
    /\ deps (state (step host r (FetchSettles index fetched clock)))
       = deps (state r)
    /\ timers (step host r (FetchSettles index fetched clock)) = timers r
    /\ intervalId (step host r (FetchSettles index fetched clock))
       = intervalId r
    /\ pending (step host r (FetchSettles index fetched clock))
       = remove_nth index (pending r).
Proof.
  intros host r index fetched clock cfg Hnth.
  destruct (fetchData_normal host cfg fetched clock (state r)) as [s' Hrun].
  destruct (fetchData_keeps_deps _ _ _ _ _ _ Hrun) as [Hdeps _].
  assert (Hstep : step host r (FetchSettles index fetched clock)
                  = {| state := s'; timers := timers r;
                       intervalId := intervalId r; next_id := next_id r;
                       pending := remove_nth index (pending r) |}).
  { unfold step. simpl. rewrite Hnth, Hrun. apply commit_same. simpl.
    now symmetry. }
  rewrite Hstep. simpl. repeat split; assumption.
Qed.

Lemma X7_witness :
  let r := run plain_host mounted [ClickToggleLive] in
  let r' := step plain_host r
              (FetchSettles 0 (Throw "Failed to fetch") ten_o_clock) in
  List.length (timers r') = 1%nat /\ pending r' = [].
Proof.
  intros r r'.
  destruct (X7_settled_poll_leaves_controller plain_host r 0
              (Throw "Failed to fetch") ten_o_clock (config_of initialState))
    as (_ & _ & Htimers & _ & Hpending); [reflexivity |].
  fold r' in Htimers, Hpending. rewrite Htimers, Hpending.
  vm_compute. split; reflexivity.
Defined.

(** X8.  In every state the component reaches, a tick polls only if it is
    the tick of the armed timer: while paused no tick does anything; while
    live the tick of the armed timer issues one request with the
    configuration of the current render, and a tick of any other handle (a
    timer cleared before) does nothing. *)
Theorem X8_only_the_armed_timer_polls :
  forall (host : Host) (evs : list Event) (id : positive),
    (isLive (state (run host mounted evs)) = false ->
     step host (run host mounted evs) (TimerFires id) = run host mounted evs)
    /\ (forall t,
          timers (run host mounted evs) = [t] ->
          (id = timer_id t ->
           step host (run host mounted evs) (TimerFires id)
           = callFetchData (config_of (state (run host mounted evs)))
               (run host mounted evs))
          /\ (id <> timer_id t ->
              step host (run host mounted evs) (TimerFires id)
              = run host mounted evs)).
Proof.
  intros host evs id. set (r := run host mounted evs).
  assert (Hinv : timers_in_step r)
    by (apply timers_in_step_run, timers_in_step_mounted).
  split.
  - intros Hpaused. unfold step. simpl.
    rewrite (timers_in_step_paused r Hinv Hpaused). simpl.
    now apply commit_same.
  - intros t Ht.
    assert (Hlive : isLive (state r) = true).
    { destruct (isLive (state r)) eqn:E; [reflexivity |].
      rewrite (timers_in_step_paused r Hinv E) in Ht. discriminate. }
    destruct (timers_in_step_live r Hinv Hlive) as (t' & Ht' & _ & Hcb & _).
    assert (t' = t) by congruence. subst t'.
    split.
    + intros ->. unfold step. simpl. rewrite Ht. simpl.
      rewrite Pos.eqb_refl, Hcb. now apply commit_same.
    + intros Hne. unfold step. simpl. rewrite Ht. simpl.
      destruct (Pos.eqb_spec (timer_id t) id) as [E | _];
        [now elim Hne | now apply commit_same].
Qed.

Lemma X8_witness :
  let r := run plain_host mounted [ClickToggleLive; ClickToggleLive] in
  step plain_host r (TimerFires 1%positive) = r.
Proof.
  intros r.
  destruct (X8_only_the_armed_timer_polls plain_host
              [ClickToggleLive; ClickToggleLive] 1%positive) as [Hpaused _].
  apply Hpaused. reflexivity.
Defined.

(** X9.  When the effect runs live it polls at once.  In every state the
    component reaches: starting issues one request with the current
    configuration, stopping issues none; choosing another interval while
    live issues one request at once, besides re-arming the timer; while
    paused an edit of the configuration issues no request and arms no
    timer. *)
Theorem X9_effect_polls_at_once :
  forall (host : Host) (evs : list Event),
    (isLive (state (run host mounted evs)) = false ->
     pending (step host (run host mounted evs) ClickToggleLive)
     = pending (run host mounted evs)
         ++ [config_of (state (run host mounted evs))])
    /\ (isLive (state (run host mounted evs)) = true ->
        pending (step host (run host mounted evs) ClickToggleLive)
        = pending (run host mounted evs))
    /\ (forall ms,
          isLive (state (run host mounted evs)) = true ->
          ms <> refreshInterval (state (run host mounted evs)) ->
          pending (step host (run host mounted evs) (SelectInterval ms))
          = pending (run host mounted evs)
              ++ [config_of (state (run host mounted evs))])
    /\ (forall ev,
          edits_configuration ev = true ->
          isLive (state (run host mounted evs)) = false ->
          pending (step host (run host mounted evs) ev)
          = pending (run host mounted evs)
          /\ timers (step host (run host mounted evs) ev) = []).
Proof.
  intros host evs. set (r := run host mounted evs).
  assert (Hinv : timers_in_step r)
    by (apply timers_in_step_run, timers_in_step_mounted).
  split; [| split; [| split]].
  - intros Hpaused. unfold step. rewrite pending_commit.
    destruct (deps_eq_dec (deps (state r))
                (deps (state (handle host ClickToggleLive r)))) as [Hsame | _].
    + apply (f_equal (fun d => fst (fst d))) in Hsame. simpl in Hsame.
      rewrite Hpaused in Hsame. discriminate.
    + simpl. now rewrite Hpaused.
  - intros Hlive. unfold step. rewrite pending_commit.
    destruct (deps_eq_dec (deps (state r))
                (deps (state (handle host ClickToggleLive r))));
      [reflexivity | simpl; now rewrite Hlive].
  - intros ms Hlive Hms. unfold step. rewrite pending_commit.
    destruct (deps_eq_dec (deps (state r))
                (deps (state (handle host (SelectInterval ms) r))))
      as [Hsame | _].
    + apply (f_equal (fun d => snd (fst d))) in Hsame. simpl in Hsame.
      now elim Hms.
    + simpl. now rewrite Hlive.
  - intros ev Hev Hpaused.
    assert (Hstate : isLive (state (handle host ev r)) = false
                     /\ pending (handle host ev r) = pending r).
    { destruct ev; simpl in *; try discriminate; now split. }
    destruct Hstate as [Hpaused' Hpending]. split.
    + unfold step. rewrite pending_commit, Hpaused', Hpending.
      now destruct (deps_eq_dec (deps (state r)) (deps (state (handle host ev r)))).
    + apply timers_in_step_paused; [now apply timers_in_step_step |].
      now rewrite state_step.
Qed.

Lemma X9_witness :
  pending (run plain_host mounted [ClickToggleLive; SelectInterval (of_Z 1000)])
  = [config_of initialState; config_of initialState].
Proof.
  destruct (X9_effect_polls_at_once plain_host [ClickToggleLive])
    as (_ & _ & Hinterval & _).
  change (run plain_host mounted [ClickToggleLive; SelectInterval (of_Z 1000)])
    with (step plain_host (run plain_host mounted [ClickToggleLive])
            (SelectInterval (of_Z 1000))).
  rewrite (Hinterval (of_Z 1000)).
  - vm_compute. reflexivity.
  - reflexivity.
  - vm_compute. discriminate.
Defined.

(** X10.  A request in flight keeps the maximum it captured: when the
    maximum is edited while a request is pending, the request is still
    pending with its old configuration, and when it succeeds the buffer is
    trimmed to the old maximum, not to the new one. *)
Theorem X10_poll_in_flight_keeps_its_maximum :
  forall (host : Host) (r : Runtime) (index : nat) (cfg : Config)
         (n : number) (fetched : completion Response) (clock : Clock)
         (updates : State -> State) (N : Z),
    nth_error (pending r) index = Some cfg ->
    ToIntegerOrInfinity (cfg_maxDataPoints cfg) = Int N ->
    1 <= N ->
    fetchData_try host cfg fetched clock = Normal updates ->
    nth_error (pending (step host r (EditMaxDataPoints n))) index = Some cfg
    /\ exists sample,
         data (state (step host (step host r (EditMaxDataPoints n))
                        (FetchSettles index fetched clock)))
         = lastN (Z.to_nat N) (data (state r) ++ [sample]).
Proof.
  intros host r index cfg n fetched clock updates N Hnth Hcap HN Htry.
  set (r1 := step host r (EditMaxDataPoints n)).
  assert (Hpending : nth_error (pending r1) index = Some cfg).
  { unfold r1, step. rewrite pending_commit.
    assert (Hlt : (index < List.length (pending r))%nat)
      by (apply nth_error_Some; congruence).
    destruct (deps_eq_dec (deps (state r))
                (deps (state (handle host (EditMaxDataPoints n) r))));
      [exact Hnth |].
    simpl. destruct (isLive (state r)); [| exact Hnth].
    now rewrite nth_error_app1. }
  split; [exact Hpending |].
  destruct (fetchData_try_updates _ _ _ _ _ Htry)
    as (response & body & extracted & v & _ & _ & _ & _ & _ & Hupd).
  eexists. rewrite state_step. simpl. rewrite Hpending.
  unfold fetchData. rewrite Htry. simpl. rewrite Hupd. simpl.
  unfold r1. rewrite state_step. simpl.
  now rewrite (appendDataPoint_lastN _ N).
Qed.

Lemma X10_witness :
  let r := run plain_host mounted
             (poll_once ++ poll_once ++ poll_once ++ [ClickFetchOnce]) in
  List.length
    (data (state (step plain_host (step plain_host r (EditMaxDataPoints (of_Z 2)))
                    (FetchSettles 0 (Normal coindesk_response) ten_o_clock))))
  = 4%nat.
Proof.
  intros r.
  pose (updates := match fetchData_try plain_host (config_of initialState)
                           (Normal coindesk_response) ten_o_clock with
                   | Normal u => u
                   | Throw _ => fun s => s
                   end).
  destruct (X10_poll_in_flight_keeps_its_maximum plain_host r 0
              (config_of initialState) (of_Z 2) (Normal coindesk_response)
              ten_o_clock updates 20)
    as (_ & sample & ->).
  - vm_compute. reflexivity.
  - reflexivity.
  - lia.
  - vm_compute. reflexivity.
  - rewrite length_lastN, length_app. vm_compute. reflexivity.
Defined.

(* ===================================================================== *)
(** ** The buffer stays bounded in the event loop *)
(* ===================================================================== *)

Lemma appendDataPoint_within (B : Z) (m : number) (p : DataPoint)
  (d : list DataPoint) :
  capacity_within B m ->
  (List.length (appendDataPoint m p d) <= Z.to_nat B)%nat.
Proof.
  intros (k & Hk & Hrange).
  rewrite (appendDataPoint_lastN m k) by (assumption || lia).
  rewrite length_lastN. lia.
Qed.

Lemma Forall_remove_nth {A : Type} (P : A -> Prop) (i : nat) (l : list A) :
  Forall P l -> Forall P (remove_nth i l).
Proof.
  intros H. revert i. induction H as [| x l Hx Hl IH]; intros i.
  - destruct i; constructor.
  - destruct i; simpl; [assumption | constructor; auto].
Qed.

Lemma Forall_filter {A : Type} (P : A -> Prop) (f : A -> bool) (l : list A) :
  Forall P l -> Forall P (filter f l).
Proof.
  intros H. induction H as [| x l Hx Hl IH]; simpl.
  - constructor.
  - destruct (f x); [constructor |]; assumption.
Qed.

Lemma bounded_by_commit (B : Z) (before : State) (h : Runtime) :
  bounded_by B h -> bounded_by B (commit before h).
Proof.
  intros (Hmax & Hpending & Htimers & Hdata). unfold commit.
  destruct (deps_eq_dec (deps before) (deps (state h)));
    [now repeat split |].
  assert (Hclean : bounded_by B (cleanup h)).
  { unfold cleanup, clearInterval. destruct (intervalId h); simpl.
    - repeat split; simpl; try assumption. now apply Forall_filter.
    - now repeat split. }
  destruct Hclean as (Hmax' & Hpending' & Htimers' & Hdata').
  unfold effect. destruct (isLive (state (cleanup h))).
  - repeat split; simpl; try assumption.
    + apply Forall_app. split; [assumption | now repeat constructor].
    + apply Forall_app. split; [assumption | now repeat constructor].
  - now repeat split.
Qed.

Lemma bounded_by_handle (host : Host) (B : Z) (ev : Event) (r : Runtime) :
  bounded_by B r ->
  (forall n, ev = EditMaxDataPoints n -> capacity_within B n) ->
  bounded_by B (handle host ev r).
Proof.
  intros (Hmax & Hpending & Htimers & Hdata) Hev.
  destruct ev; simpl; try (now repeat split).
  - destruct (isLive (state r)); [now repeat split |].
    repeat split; simpl; try assumption.
    apply Forall_app. split; [assumption | now repeat constructor].
  - repeat split; simpl; try assumption. lia.
  - repeat split; simpl; try assumption. now apply Hev.
  - destruct (nth_error apiExamples index); [| now repeat split].
    repeat split; simpl; try assumption. lia.
  - destruct (find _ (timers r)) as [t |] eqn:Hfind; [| now repeat split].
    repeat split; simpl; try assumption.
    apply Forall_app. split; [assumption |]. repeat constructor.
    apply find_some in Hfind. destruct Hfind as [Hin _].
    rewrite Forall_forall in Htimers. now apply Htimers.
  - destruct (nth_error (pending r) index) as [cfg |] eqn:Hnth;
      [| now repeat split].
    assert (Hcfg : capacity_within B (cfg_maxDataPoints cfg)).
    { rewrite Forall_forall in Hpending. apply Hpending.
      eapply nth_error_In; eassumption. }
    destruct (fetchData_outcome host cfg fetched clock (state r))
      as [(updates & Htry & Hok) | (message & _ & Hfail)].
    + destruct (fetchData_try_updates _ _ _ _ _ Htry)
        as (response & body & extracted & v & _ & _ & _ & _ & _ & Hupd).
      rewrite Hok, Hupd. repeat split; simpl; try assumption.
      * now apply Forall_remove_nth.
      * now apply appendDataPoint_within.
    + rewrite Hfail. repeat split; simpl; try assumption.
      now apply Forall_remove_nth.
Qed.

Lemma bounded_by_run (host : Host) (B : Z) (evs : list Event) :
  forall r,
    bounded_by B r ->
    (forall n, In (EditMaxDataPoints n) evs -> capacity_within B n) ->
    bounded_by B (run host r evs).
Proof.
  induction evs as [| ev evs IH]; intros r Hr Hevs; simpl.
  - exact Hr.
  - apply IH.
    + unfold step. apply bounded_by_commit, bounded_by_handle; [exact Hr |].
      intros n ->. apply Hevs. now left.
    + intros n Hn. apply Hevs. now right.
Qed.

(** X11.  The buffer stays bounded whatever happens: if every maximum
    typed into the field has an integer value between 1 and [B], with [B]
    at least the initial maximum 20, then in every state the component
    reaches the buffer holds at most [B] samples, whatever the order in
    which polls are issued and settle. *)
Theorem X11_buffer_bounded_in_every_reachable_state :
  forall (host : Host) (B : Z) (evs : list Event),
    20 <= B ->
    (forall n, In (EditMaxDataPoints n) evs -> capacity_within B n) ->
    (List.length (data (state (run host mounted evs))) <= Z.to_nat B)%nat.
Proof.
  intros host B evs HB Hevs.
  assert (Hstart : bounded_by B mounted).
  { unfold bounded_by, mounted. simpl. repeat split; try constructor.
    - exists 20. split; [reflexivity | lia].
    - lia. }
  destruct (bounded_by_run host B evs mounted Hstart Hevs) as (_ & _ & _ & H).
  exact H.
Qed.

Lemma X11_witness :
  (List.length
     (data (state (run plain_host mounted
                     (poll_once ++ [EditMaxDataPoints (of_Z 5)] ++ poll_once))))
   <= Z.to_nat 100)%nat.
Proof.
  apply X11_buffer_bounded_in_every_reachable_state; [lia |].
  intros n Hn. simpl in Hn.
  destruct Hn as [Hn | [Hn | [Hn | [Hn | [Hn | []]]]]]; try discriminate.
  injection Hn as <-. exists 5. split; [reflexivity | lia].
Defined.

(* ===================================================================== *)
(** ** The function plotter *)
(* ===================================================================== *)

Lemma num_leb_of_not_ltb (x y : number) :
  is_nan x = false -> is_nan y = false ->
  num_ltb y x = false -> num_leb x y = true.
Proof.
  unfold num_ltb, num_leb, SFltb, SFleb, SFcompare.
  change (Pos.compare_cont Eq) with Pos.compare.
  number_cases x; number_cases y; simpl;
    try reflexivity; try discriminate; intros; compare_cases.
Qed.

Lemma num_leb_refl_finite (x : number) :
  is_finite x = true -> num_leb x x = true.
Proof.
  unfold num_leb, SFleb, SFcompare.
  change (Pos.compare_cont Eq) with Pos.compare.
  number_cases x; simpl; try discriminate; intros _;
    now rewrite Z.compare_refl, Pos.compare_refl.
Qed.

(** [Math.max(0.01, v)] is [NaN] or at least 0.01. *)
Lemma Math_max_one_hundredth (v : number) :
  is_nan (Math_max [FunctionVisualizer.one_hundredth; v]) = true
  \/ num_leb FunctionVisualizer.one_hundredth
       (Math_max [FunctionVisualizer.one_hundredth; v]) = true.
Proof.
  assert (Hc : is_nan FunctionVisualizer.one_hundredth = false)
    by (vm_compute; reflexivity).
  destruct (is_nan v) eqn:Hv.
  - left. destruct v; try discriminate. vm_compute. reflexivity.
  - right.
    assert (Hargs : no_NaN [FunctionVisualizer.one_hundredth; v]).
    { intros y [<- | [<- | []]]; assumption. }
    destruct (Math_max_spec [FunctionVisualizer.one_hundredth; v])
      as [Hin Hhigh]; [discriminate | exact Hargs |].
    apply num_leb_of_not_ltb.
    + exact Hc.
    + now apply Hargs.
    + apply Hhigh. now left.
Qed.

(** X12.  The left end of the plotted domain never falls below 0.01: the
    range input honouring its minimum, after every sequence of zooms,
    resets and slider moves [xMin] is at least 0.01, unless the arithmetic
    of a zoom has produced [NaN]. *)
Theorem X12_left_end_at_least_one_hundredth :
  forall evs : list FunctionVisualizer.Event,
    (forall v,
        In (FunctionVisualizer.SlideXMin v) evs ->
        num_leb FunctionVisualizer.one_hundredth (parseFloat_string v) = true) ->
    is_nan (FunctionVisualizer.xMin
              (FunctionVisualizer.run FunctionVisualizer.initialState evs)) = true
    \/ num_leb FunctionVisualizer.one_hundredth
         (FunctionVisualizer.xMin
            (FunctionVisualizer.run FunctionVisualizer.initialState evs)) = true.
Proof.
  intros evs.
  assert (Hinit : is_nan (FunctionVisualizer.xMin FunctionVisualizer.initialState)
                  = true
                  \/ num_leb FunctionVisualizer.one_hundredth
                       (FunctionVisualizer.xMin FunctionVisualizer.initialState)
                     = true)
    by (right; vm_compute; reflexivity).
  revert Hinit. generalize FunctionVisualizer.initialState as s.
  induction evs as [| ev evs IH]; intros s Hs Hslides; simpl.
  - exact Hs.
  - apply IH.
    + destruct ev; simpl.
      * apply Math_max_one_hundredth.
      * apply Math_max_one_hundredth.
      * right. vm_compute. reflexivity.
      * exact Hs.
      * right. apply Hslides. now left.
      * exact Hs.
    + intros v Hv. apply Hslides. now right.
Qed.

Lemma X12_witness :
  num_leb FunctionVisualizer.one_hundredth
    (FunctionVisualizer.xMin
       (FunctionVisualizer.run FunctionVisualizer.initialState
          [FunctionVisualizer.SlideXMin "0.05"; FunctionVisualizer.ClickZoomOut;
           FunctionVisualizer.ClickZoomOut])) = true.
Proof.
  destruct (X12_left_end_at_least_one_hundredth
              [FunctionVisualizer.SlideXMin "0.05"; FunctionVisualizer.ClickZoomOut;
               FunctionVisualizer.ClickZoomOut]) as [Hnan | Hle].
  - intros v Hv. simpl in Hv.
    destruct Hv as [Hv | [Hv | [Hv | []]]]; try discriminate.
    injection Hv as <-. vm_compute. reflexivity.
  - vm_compute in Hnan. discriminate.
  - exact Hle.
Defined.

Lemma sampleFrom_absorbed (Math_log : number -> number) (fuel : nat) :
  forall (x0 xMax0 step : number) (points : list FunctionVisualizer.Point),
    num_add x0 step = x0 ->
    num_leb x0 xMax0 = true ->
    FunctionVisualizer.sampleFrom Math_log fuel x0 xMax0 step points = None.
Proof.
  induction fuel as [| fuel IH]; intros x0 xMax0 step points Hadd Hle; simpl.
  - reflexivity.
  - rewrite Hle, Hadd. now apply IH.
Qed.

Lemma num_sub_diag_finite (x : number) :
  is_finite x = true -> num_sub x x = PosZero.
Proof.
  destruct x as [s | s | | s m e]; try discriminate. intros _.
  unfold num_sub, SFsub. now rewrite Z.sub_diag.
Qed.

(** X13.  When the loop that samples the function ends.  If [xMin <= xMax]
    does not hold, it ends at its first test, with no point.  If adding the
    step to [xMin] gives [xMin] again, and [xMin <= xMax], its condition
    never becomes false: it is still running after any number of tests.
    That is the case when both ends are the same finite number, as when
    both range inputs are at 2. *)
Theorem X13_sampling_loop_may_never_end :
  forall (Math_log : number -> number) (s : FunctionVisualizer.State),
    (num_leb (FunctionVisualizer.xMin s) (FunctionVisualizer.xMax s) = false ->
     forall fuel, FunctionVisualizer.data Math_log (S fuel) s = Some [])
    /\ (num_add (FunctionVisualizer.xMin s)
          (num_div (num_sub (FunctionVisualizer.xMax s) (FunctionVisualizer.xMin s))
             (of_Z 200))
        = FunctionVisualizer.xMin s ->
        num_leb (FunctionVisualizer.xMin s) (FunctionVisualizer.xMax s) = true ->
        forall fuel, FunctionVisualizer.data Math_log fuel s = None)
    /\ (is_finite (FunctionVisualizer.xMin s) = true ->
        FunctionVisualizer.xMax s = FunctionVisualizer.xMin s ->
        forall fuel, FunctionVisualizer.data Math_log fuel s = None).
Proof.
  intros Math_log s. split; [| split].
  - intros Hempty fuel. unfold FunctionVisualizer.data. simpl.
    now rewrite Hempty.
  - intros Hadd Hle fuel. unfold FunctionVisualizer.data.
    now apply sampleFrom_absorbed.
  - intros Hfin Heq fuel. unfold FunctionVisualizer.data. rewrite Heq.
    rewrite (num_sub_diag_finite _ Hfin).
    assert (Hstep : num_div PosZero (of_Z 200) = PosZero)
      by (vm_compute; reflexivity).
    rewrite Hstep. apply sampleFrom_absorbed.
    + destruct (FunctionVisualizer.xMin s); try discriminate. reflexivity.
    + now apply num_leb_refl_finite.
Qed.

Lemma X13_witness :
  FunctionVisualizer.data (fun _ => PosZero) 1000
    (FunctionVisualizer.run FunctionVisualizer.initialState
       (repeat FunctionVisualizer.ClickZoomIn 47))
  = None
  /\ FunctionVisualizer.data (fun _ => PosZero) 1000
       (FunctionVisualizer.run FunctionVisualizer.initialState
          [FunctionVisualizer.SlideXMin "2"; FunctionVisualizer.SlideXMax "2"])
     = None.
Proof.
  split.
  - destruct (X13_sampling_loop_may_never_end (fun _ => PosZero)
                (FunctionVisualizer.run FunctionVisualizer.initialState
                   (repeat FunctionVisualizer.ClickZoomIn 47)))
      as (_ & Habsorbed & _).
    apply Habsorbed; vm_compute; reflexivity.
  - destruct (X13_sampling_loop_may_never_end (fun _ => PosZero)
                (FunctionVisualizer.run FunctionVisualizer.initialState
                   [FunctionVisualizer.SlideXMin "2";
                    FunctionVisualizer.SlideXMax "2"]))
      as (_ & _ & Hsame).
    apply Hsame; vm_compute; reflexivity.
Defined.

(* ===================================================================== *)
(** ** Numeric segments *)
(* ===================================================================== *)

(** The digits of a decimal numeral are read back with its value. *)
Lemma take_digits_string_of_uint (u : Decimal.uint) :
  exists ds,
    take_digits (NilEmpty.string_of_uint u) = (ds, EmptyString)
    /\ (forall acc : positive,
          fold_left (fun a d => 10 * a + d) ds (Zpos acc)
          = Zpos (Pos.of_uint_acc u acc))
    /\ fold_left (fun a d => 10 * a + d) ds 0 = Z.of_N (Pos.of_uint u).
Proof.
  induction u as [| u IH | u IH | u IH | u IH | u IH
                  | u IH | u IH | u IH | u IH | u IH].
  - exists []. repeat split.
  - read_digit 0 IH.
  - read_digit 1 IH.
  - read_digit 2 IH.
  - read_digit 3 IH.
  - read_digit 4 IH.
  - read_digit 5 IH.
  - read_digit 6 IH.
  - read_digit 7 IH.
  - read_digit 8 IH.
  - read_digit 9 IH.
Qed.

Lemma unorm_D0_fixed (u : Decimal.uint) :
  Decimal.unorm (Decimal.D0 u) = Decimal.D0 u -> u = Decimal.Nil.
Proof.
  intros H. destruct u; try reflexivity;
    match type of H with
    | Decimal.unorm (Decimal.D0 ?v) = _ =>
        assert (Hne : v <> Decimal.Nil) by discriminate;
        pose proof (DecimalFacts.nb_digits_unorm v Hne) as Hle;
        rewrite DecimalFacts.unorm_D0 in H; rewrite H in Hle;
        simpl in Hle; lia
    end.
Qed.

(** The decimal numeral of a natural number: a non-empty string of digits
    without a superfluous leading zero, read back with its value. *)
Lemma decimal_string_spec (i : nat) :
  exists c rest ds,
    decimal_string (Z.of_nat i) = String c rest
    /\ take_digits (String c rest) = (ds, EmptyString)
    /\ digits_value ds = Z.of_nat i
    /\ Ascii.eqb c "0" && negb (String.eqb rest EmptyString) = false.
Proof.
  unfold decimal_string.
  replace (Z.to_N (Z.of_nat i)) with (N.of_nat i) by lia.
  set (n := N.of_nat i). set (u := N.to_uint n).
  assert (Hnorm : Decimal.unorm u = u).
  { unfold u. rewrite <- (DecimalN.Unsigned.to_of (N.to_uint n)).
    now rewrite DecimalN.Unsigned.of_to. }
  assert (Hvalue : Pos.of_uint u = n)
    by (apply DecimalN.Unsigned.of_to).
  destruct (take_digits_string_of_uint u) as (ds & Htake & _ & Hzero).
  assert (Hdigits : digits_value ds = Z.of_nat i).
  { unfold digits_value. rewrite Hzero, Hvalue. unfold n. lia. }
  assert (Hnonnil : u <> Decimal.Nil).
  { unfold u. destruct n; [discriminate |].
    apply DecimalPos.Unsigned.to_uint_nonnil. }
  clearbody u. clear Hvalue Hzero.
  destruct u as [| u' | u' | u' | u' | u' | u' | u' | u' | u' | u'];
    [contradiction | | | | | | | | | |];
    cbn [NilZero.string_of_uint NilEmpty.string_of_uint] in *;
    eexists; eexists; exists ds;
    (split; [reflexivity | split; [exact Htake | split; [exact Hdigits |]]]);
    try reflexivity.
  rewrite (unorm_D0_fixed u' Hnorm). reflexivity.
Qed.

Lemma take_digits_dot_free (s : string) :
  forall ds, take_digits s = (ds, EmptyString) -> dot_free s = true.
Proof.
  induction s as [| c s IH]; intros ds H; simpl in *.
  - reflexivity.
  - destruct (digit_of c) as [d |] eqn:Hc; [| discriminate].
    destruct (take_digits s) as [ds' tl] eqn:Hs.
    injection H as _ ->.
    rewrite (IH ds' eq_refl), andb_true_r.
    destruct (Ascii.eqb_spec c ".") as [-> | _]; [discriminate | reflexivity].
Qed.

Lemma take_digits_not_length (c : ascii) (rest : string) (ds : list Z) :
  take_digits (String c rest) = (ds, EmptyString) ->
  String.eqb (String c rest) "length" = false.
Proof.
  simpl. destruct (digit_of c) as [d |] eqn:Hc; [| discriminate]. intros _.
  destruct (Ascii.eqb_spec c "l") as [-> | _]; [discriminate | reflexivity].
Qed.

Lemma getValueFromPath_dot (host : Host) (obj : JSValue) (p q : string) :
  p <> "" -> q <> "" ->
  getValueFromPath host obj (p ++ String "." q)
  = (v <- getValueFromPath host obj p ;; getValueFromPath host v q).
Proof.
  intros Hp Hq.
  rewrite (getValueFromPath_nonempty host obj (p ++ String "." q))
    by (destruct p; discriminate).
  rewrite (getValueFromPath_nonempty host obj p Hp).
  rewrite split_app_sep, reduce_app.
  destruct (reduce (and_then_get host) (split "." p) obj) as [v | m]; simpl.
  - now rewrite (getValueFromPath_nonempty host v q Hq).
  - reflexivity.
Qed.

(** X14.  A numeric segment selects an element of an array: extracting the
    decimal numeral of [i] from an array returns its element number [i],
    also at the end of a longer path ([results.0] where [results[0]] finds
    nothing); the segment [length] returns the number of elements. *)
Theorem X14_numeric_segment_selects_element :
  forall (host : Host) (elems : list JSValue),
    (forall i e,
        nth_error elems i = Some e ->
        getValueFromPath host (JArray elems) (decimal_string (Z.of_nat i))
        = Normal e
        /\ (forall obj p,
              p <> "" ->
              getValueFromPath host obj p = Normal (JArray elems) ->
              getValueFromPath host obj
                (p ++ String "." (decimal_string (Z.of_nat i)))
              = Normal e))
    /\ getValueFromPath host (JArray elems) "length"
       = Normal (JNumber (of_Z (Z.of_nat (List.length elems)))).
Proof.
  intros host elems. split; [| reflexivity].
  intros i e Hnth.
  destruct (decimal_string_spec i) as (c & rest & ds & Hs & Htake & Hval & Hzero).
  assert (Hindex : canonical_index (String c rest) = Some i).
  { unfold canonical_index. rewrite Htake, Hzero, Hval. f_equal. lia. }
  assert (Here : getValueFromPath host (JArray elems) (String c rest) = Normal e).
  { rewrite getValueFromPath_nonempty by discriminate.
    rewrite (split_dot_free _ (take_digits_dot_free _ _ Htake)).
    cbn [reduce]. unfold and_then_get, Get.
    cbn [ToBoolean GetOwnProperty].
    rewrite (take_digits_not_length _ _ _ Htake), Hindex, Hnth. reflexivity. }
  rewrite Hs. split; [exact Here |].
  intros obj p Hp Hobj.
  rewrite getValueFromPath_dot by (assumption || discriminate).
  rewrite Hobj. exact Here.
Qed.

Lemma X14_witness :
  getValueFromPath plain_host
    (JObject [("results",
               JArray [JObject [("login", JObject [("uuid", JString "7a0e")])]])])
    "results.0"
  = Normal (JObject [("login", JObject [("uuid", JString "7a0e")])]).
Proof.
  destruct (X14_numeric_segment_selects_element plain_host
              [JObject [("login", JObject [("uuid", JString "7a0e")])]])
    as [Helem _].
  destruct (Helem 0%nat (JObject [("login", JObject [("uuid", JString "7a0e")])])
              eq_refl) as [_ Hpath].
  apply (Hpath (JObject [("results",
                  JArray [JObject [("login", JObject [("uuid", JString "7a0e")])]])])
           "results").
  - discriminate.
  - reflexivity.
Defined.
